(** * tiff-composer: geographic coordinates, extents and raster queries

    A shallow embedding of [tiffcomposer/core/coordinates.py],
    [tiffcomposer/utils/extent.py] and [tiffcomposer/utils/pixel.py].

    Numbers.  The fields of a coordinate, the raster samples and the results
    of the affine transform are Python numbers; every value that passes the
    bounds check of a coordinate is finite, hence a rational, and is modelled
    as [Q] with the comparisons of [QArith].  The sum and the difference of
    two fields are rounded as Python rounds them, to the nearest binary64
    float ([binary64]).  The functions of [math] and [numpy] that leave the
    rationals ([sin], [cos], [sqrt], [atan2]) are taken over the real numbers
    [R], in exact arithmetic: the rounding of [distance_to] and of
    [earth_radius] is not modelled, so what is proved of them is proved of
    the exact computation.

    Effects.  A Python exception is the [Raise] branch of [result]; a
    property setter is a function from the object to its outcome and the
    object afterwards. *)

From Stdlib Require Import ZArith QArith Qminmax Qround Qabs Qreals.
From Stdlib Require Import Reals Lra Lia List String.
From stdpp Require Import gmap strings list.

Local Open Scope string_scope.
Local Open Scope Z_scope.
Local Open Scope Q_scope.

(** ** Exceptions and results *)

Inductive exn : Type :=
  | GeoCoordinateError (message : string)
  | ValueError (message : string)
  | KeyError (key : string)
  | ZeroDivisionError
  | TypeError
  | IndexError.

Inductive result (A : Type) : Type :=
  | Ok (value : A)
  | Raise (e : exn).

Arguments Ok {A} value.
Arguments Raise {A} e.

Definition bind {A B : Type} (r : result A) (k : A -> result B) : result B :=
  match r with
  | Ok a => k a
  | Raise e => Raise e
  end.

Notation "'let?' x ':=' r 'in' k" := (bind r (fun x => k))
  (at level 10, x name, r at level 200, k at level 200).

Definition succeeds {A : Type} (r : result A) : Prop :=
  exists a, r = Ok a.

Definition raises {A : Type} (r : result A) : Prop :=
  exists e, r = Raise e.

(** [x < y] on Python numbers. *)
Definition Qlt_bool (x y : Q) : bool := negb (Qle_bool y x).

(** [int(x)]: truncation towards zero. *)
Definition int (x : Q) : Z := Z.quot (Qnum x) (Zpos (Qden x)).

(** ** Python floats *)

(** The integer nearest to [x]; halfway between two integers, the even
    one. *)
Definition round_half_even (x : Q) : Z :=
  let f := Qfloor x in
  match Qcompare (x - inject_Z f) (1 # 2) with
  | Lt => f
  | Gt => (f + 1)%Z
  | Eq => if Z.even f then f else (f + 1)%Z
  end.

(** [2 ^ e] for an integer [e] of either sign. *)
Definition power_of_two (e : Z) : Q :=
  match e with
  | Z0 => 1
  | Zpos p => inject_Z (2 ^ Zpos p)
  | Zneg p => 1 # (2 ^ p)
  end.

(** The [e] with [2 ^ e <= |x| < 2 ^ (e + 1)], for [x] other than 0. *)
Definition binary_exponent (x : Q) : Z :=
  let e := (Z.log2 (Z.abs (Qnum x)) - Z.log2 (Zpos (Qden x)))%Z in
  if Qle_bool (power_of_two e) (Qabs x) then e else (e - 1)%Z.

(** The binary64 float nearest to [x], ties to the even significand: 53
    significant bits, and below [2 ^ -1022] the fixed spacing [2 ^ -1074] of
    the subnormal floats.  Overflow is left out: a magnitude of [2 ^ 1024]
    is far above anything the bounds check of a coordinate lets through. *)
Definition binary64 (x : Q) : Q :=
  if Qeq_bool x 0 then 0
  else
    let e := Z.max (binary_exponent x) (-1022) in
    let ulp := power_of_two (e - 52) in
    Qred (inject_Z (round_half_even (x / ulp)) * ulp).

(** [x + y] and [x - y] on Python floats (and on the integers a coordinate
    can hold, whose sums and differences are floats too). *)
Definition float_add (x y : Q) : Q := binary64 (x + y).

Definition float_sub (x y : Q) : Q := binary64 (x - y).

(** [x * y] on Python floats. *)
Definition float_mul (x y : Q) : Q := binary64 (x * y).

(** ** The functions of [math] and [numpy] the code calls *)

(** [math.radians] and [numpy.degrees]. *)
Definition radians (x : R) : R := (x * PI / 180)%R.

Definition degrees (x : R) : R := (x * 180 / PI)%R.

(** [math.sqrt]: a negative argument is a domain error. *)
Definition math_sqrt (x : R) : result R :=
  if Rlt_dec x 0 then Raise (ValueError "math domain error")
  else Ok (sqrt x).

(** [math.atan2(y, x)]: the angle of the point [(x, y)], above [- PI] and
    at most [PI]. *)
Definition atan2 (y x : R) : R :=
  if Rlt_dec 0 x then atan (y / x)
  else if Rlt_dec x 0 then
    if Rle_dec 0 y then (atan (y / x) + PI)%R else (atan (y / x) - PI)%R
  else if Rlt_dec 0 y then (PI / 2)%R
  else if Rlt_dec y 0 then (- PI / 2)%R
  else 0%R.

(** [x / y] on Python floats. *)
Definition truediv (x y : R) : result R :=
  if Req_dec_T y 0 then Raise ZeroDivisionError else Ok (x / y)%R.

(** [int(x)] on a float: truncation towards zero. *)
Definition int_of_float (x : R) : Z :=
  if Rle_dec 0 x then Int_part x else (- Int_part (- x))%Z.

(** [numpy.linspace(start, stop, num)]: [num] samples, [start] plus a
    multiple of the common gap [(stop - start) / (num - 1)]. *)
Definition linspace (start stop : R) (num : nat) : list R :=
  map (fun i => (INR i * ((stop - start) / INR (num - 1)) + start)%R)
      (seq 0 num).

(** A list comprehension whose body can raise. *)
Fixpoint comprehension {A B : Type} (f : A -> result B) (l : list A)
  : result (list B) :=
  match l with
  | [] => Ok []
  | x :: l' =>
      let? y := f x in
      let? ys := comprehension f l' in
      Ok (y :: ys)
  end.

(** [numpy.sum] of a one-dimensional array. *)
Definition np_sum (a : list R) : R := fold_right Rplus 0%R a.

(** A [numpy] float result: a number or NaN. *)
Inductive npfloat : Type :=
  | Finite (value : Q)
  | NaN.

(** [numpy.mean]: the mean of no sample is NaN, with a warning and no
    exception. *)
Definition np_mean (a : list Q) : result npfloat :=
  match a with
  | [] => Ok NaN
  | _ => Ok (Finite (fold_right Qplus 0 a / inject_Z (Z.of_nat (length a))))
  end.

(** [numpy.max] and [numpy.min]: a reduction of no sample has no identity. *)
Definition np_max (a : list Q) : result npfloat :=
  match a with
  | [] =>
      Raise (ValueError
        "zero-size array to reduction operation maximum which has no identity")
  | x :: a' => Ok (Finite (fold_left Qmax a' x))
  end.

Definition np_min (a : list Q) : result npfloat :=
  match a with
  | [] =>
      Raise (ValueError
        "zero-size array to reduction operation minimum which has no identity")
  | x :: a' => Ok (Finite (fold_left Qmin a' x))
  end.

(** A two-dimensional array, row by row. *)
Definition ndarray : Type := list (list Q).

(** An index into an axis of length [n]: negative indices count from the
    end. *)
Definition axis_index (n : nat) (i : Z) : result nat :=
  let j := (if i <? 0 then i + Z.of_nat n else i)%Z in
  if ((0 <=? j) && (j <? Z.of_nat n))%Z then Ok (Z.to_nat j)
  else Raise IndexError.

(** [data[i, j]]. *)
Definition getitem (data : ndarray) (i j : Z) : result Q :=
  let? r := axis_index (length data) i in
  let row := nth r data [] in
  let? k := axis_index (length row) j in
  Ok (nth k row 0).

(** ** coordinates.py: the two classes as data *)

(** The instance attributes of a [GeoCoordinate]. *)
Record GeoCoordinate : Type := {
  _latitude : Q;
  _longitude : Q
}.

(** The instance attributes of a [GeoCoordinateExtent]. *)
Record GeoCoordinateExtent : Type := {
  _start : GeoCoordinate;
  _end : GeoCoordinate
}.

(** What an argument annotated [object] can be, as far as [isinstance]
    tells. *)
Inductive object : Type :=
  | PyCoordinate (c : GeoCoordinate)
  | PyExtent (e : GeoCoordinateExtent)
  | PyOther.

(** ** coordinates.py: class GeoCoordinate *)

Module Coordinate.

Definition latitude (self : GeoCoordinate) : Q := _latitude self.

Definition longitude (self : GeoCoordinate) : Q := _longitude self.

Definition latitude_message : string :=
  "Latitude must be between -90 and 90 degrees.".

Definition longitude_message : string :=
  "Longitude must be between -180 and 180 degrees.".

(** [@latitude.setter]: the outcome of [self.latitude = value] and the
    object after it. *)
Definition set_latitude (value : Q) (self : GeoCoordinate)
  : result unit * GeoCoordinate :=
  if negb (Qle_bool (-90) value && Qle_bool value 90) then
    (Raise (GeoCoordinateError latitude_message), self)
  else
    (Ok tt, {| _latitude := value; _longitude := _longitude self |}).

(** [@longitude.setter]. *)
Definition set_longitude (value : Q) (self : GeoCoordinate)
  : result unit * GeoCoordinate :=
  if negb (Qle_bool (-180) value && Qle_bool value 180) then
    (Raise (GeoCoordinateError longitude_message), self)
  else
    (Ok tt, {| _latitude := _latitude self; _longitude := value |}).

(** [__init__] runs both setters, latitude first, on the object being
    built; [self] is that object before any attribute is set. *)
Definition __init__ (self : GeoCoordinate) (latitude longitude : Q)
  : result GeoCoordinate :=
  let (r1, self1) := set_latitude latitude self in
  let? _ := r1 in
  let (r2, self2) := set_longitude longitude self1 in
  let? _ := r2 in
  Ok self2.

(** The object before [__init__]: it has no attribute yet, and the two
    fields below are never read (lemma [init_any_fresh]). *)
Definition fresh : GeoCoordinate := {| _latitude := 0; _longitude := 0 |}.

(** [GeoCoordinate(latitude, longitude)]. *)
Definition new (latitude longitude : Q) : result GeoCoordinate :=
  __init__ fresh latitude longitude.

(** The [inverted] property. *)
Definition inverted (self : GeoCoordinate) : result GeoCoordinate :=
  new (longitude self) (latitude self).

(** WGS84 ellipsoid parameters. *)
Definition wgs84_a : R := 6378137%R.

Definition wgs84_b : R := (6356752314245 / 1000000)%R.

(** [earth_radius(latitude)], a static method. *)
Definition earth_radius (latitude : R) : result R :=
  let a := wgs84_a in
  let b := wgs84_b in
  let lat_rad := radians latitude in
  let? quotient :=
    truediv ((a ^ 2 * cos lat_rad) ^ 2 + (b ^ 2 * sin lat_rad) ^ 2)
            ((a * cos lat_rad) ^ 2 + (b * sin lat_rad) ^ 2) in
  let? radius := math_sqrt quotient in
  Ok radius.

(** [distance_to(other, step)], in exact arithmetic: the domain error of
    [math.sqrt] and the division by zero are kept as the code has them; what
    rounding adds to them is not modelled. *)
Definition distance_to (self : GeoCoordinate) (other : object) (step : Q)
  : result R :=
  match other with
  | PyCoordinate other =>
      let lat1 := radians (Q2R (latitude self)) in
      let lon1 := radians (Q2R (longitude self)) in
      let lat2 := radians (Q2R (latitude other)) in
      let lon2 := radians (Q2R (longitude other)) in
      let dlat := (lat2 - lat1)%R in
      let dlon := (lon2 - lon1)%R in
      let a :=
        (sin (dlat / 2) ^ 2 + cos lat1 * cos lat2 * sin (dlon / 2) ^ 2)%R in
      let? sqrt_a := math_sqrt a in
      let? sqrt_1_a := math_sqrt (1 - a) in
      let c := (2 * atan2 sqrt_a sqrt_1_a)%R in
      if Qeq_bool step 0 then
        let midpoint_lat := (latitude self + latitude other) / 2 in
        let? R := earth_radius (Q2R midpoint_lat) in
        Ok (R * c)%R
      else
        let? ratio := truediv c (Q2R step) in
        let steps := Z.max (int_of_float ratio) 1 in
        let fractions := linspace 0 1 (Z.to_nat (steps + 1)) in
        let interpolated_lats :=
          map (fun fraction => (lat1 + fraction * dlat)%R) fractions in
        let? radii :=
          comprehension (fun lat => earth_radius (degrees lat))
                        interpolated_lats in
        let? segment := truediv c (IZR steps) in
        let segment_distances :=
          map (fun radius => (radius * segment)%R) (removelast radii) in
        let total_distance := np_sum segment_distances in
        Ok total_distance
  | _ =>
      Raise (GeoCoordinateError
               "Cannot calculate distance to a non-GeoCoordinate object.")
  end.

Definition to_tuple (self : GeoCoordinate) : Q * Q :=
  (latitude self, longitude self).

Definition to_list (self : GeoCoordinate) : list Q :=
  [latitude self; longitude self].

Definition to_dict (self : GeoCoordinate) : gmap string Q :=
  <["latitude" := latitude self]> (<["longitude" := longitude self]> ∅).

(** [from_tuple]: the class called on the two unpacked values. *)
Definition from_tuple (values : Q * Q) : result GeoCoordinate :=
  new (fst values) (snd values).

(** [from_list]: the class called on the unpacked list; any length but two
    is a wrong number of arguments. *)
Definition from_list (values : list Q) : result GeoCoordinate :=
  match values with
  | [latitude; longitude] => new latitude longitude
  | _ => Raise TypeError
  end.

Definition from_dict (values : gmap string Q) : result GeoCoordinate :=
  match values !! "latitude" with
  | None => Raise (KeyError "latitude")
  | Some latitude =>
      match values !! "longitude" with
      | None => Raise (KeyError "longitude")
      | Some longitude => new latitude longitude
      end
  end.

Definition __eq__ (self : GeoCoordinate) (other : object) : result bool :=
  match other with
  | PyCoordinate other =>
      Ok (Qeq_bool (latitude self) (latitude other)
          && Qeq_bool (longitude self) (longitude other))
  | _ =>
      Raise (GeoCoordinateError
               "Cannot compare GeoCoordinate with non-GeoCoordinate object.")
  end.

Definition __ne__ (self : GeoCoordinate) (other : object) : result bool :=
  match other with
  | PyCoordinate other =>
      Ok (negb (Qeq_bool (latitude self) (latitude other))
          || negb (Qeq_bool (longitude self) (longitude other)))
  | _ =>
      Raise (GeoCoordinateError
               "Cannot compare GeoCoordinate with non-GeoCoordinate object.")
  end.

(** [self + other]: the two sums are floats, rounded before the constructor
    checks them. *)
Definition __add__ (self : GeoCoordinate) (other : object)
  : result GeoCoordinate :=
  match other with
  | PyCoordinate other =>
      new (float_add (latitude self) (latitude other))
          (float_add (longitude self) (longitude other))
  | _ =>
      Raise (GeoCoordinateError
               "Cannot add GeoCoordinate with non-GeoCoordinate object.")
  end.

(** [self - other]. *)
Definition __sub__ (self : GeoCoordinate) (other : object)
  : result GeoCoordinate :=
  match other with
  | PyCoordinate other =>
      new (float_sub (latitude self) (latitude other))
          (float_sub (longitude self) (longitude other))
  | _ =>
      Raise (GeoCoordinateError
               "Cannot subtract GeoCoordinate with non-GeoCoordinate object.")
  end.

(** The invariant of the class: what both setters check. *)
Definition in_latitude_range (value : Q) : Prop := -90 <= value /\ value <= 90.

Definition in_longitude_range (value : Q) : Prop :=
  -180 <= value /\ value <= 180.

Definition valid (self : GeoCoordinate) : Prop :=
  in_latitude_range (latitude self) /\ in_longitude_range (longitude self).

(** The component-wise sum and difference of two coordinates, as computed,
    stay in the domain. *)
Definition sum_in_range (a b : GeoCoordinate) : Prop :=
  in_latitude_range (float_add (latitude a) (latitude b))
  /\ in_longitude_range (float_add (longitude a) (longitude b)).

Definition difference_in_range (a b : GeoCoordinate) : Prop :=
  in_latitude_range (float_sub (latitude a) (latitude b))
  /\ in_longitude_range (float_sub (longitude a) (longitude b)).

(** Arithmetic that escapes the bounds check: some valid pair whose sum, or
    whose difference, leaves the domain is added, or subtracted, without an
    exception. *)
Definition unchecked_arithmetic : Prop :=
  (exists a b, valid a /\ valid b /\ ~ sum_in_range a b
               /\ succeeds (__add__ a (PyCoordinate b)))
  \/ (exists a b, valid a /\ valid b /\ ~ difference_in_range a b
                  /\ succeeds (__sub__ a (PyCoordinate b))).

End Coordinate.


(** ** coordinates.py: class GeoCoordinateExtent *)

Module Extent.

Definition start (self : GeoCoordinateExtent) : GeoCoordinate := _start self.

Definition end_ (self : GeoCoordinateExtent) : GeoCoordinate := _end self.

(** [@start.setter]. *)
Definition set_start (value : object) (self : GeoCoordinateExtent)
  : result unit * GeoCoordinateExtent :=
  match value with
  | PyCoordinate value => (Ok tt, {| _start := value; _end := _end self |})
  | _ =>
      (Raise (GeoCoordinateError
                "Start coordinate must be a GeoCoordinate object."), self)
  end.

(** [@end.setter]. *)
Definition set_end (value : object) (self : GeoCoordinateExtent)
  : result unit * GeoCoordinateExtent :=
  match value with
  | PyCoordinate value => (Ok tt, {| _start := _start self; _end := value |})
  | _ =>
      (Raise (GeoCoordinateError
                "End coordinate must be a GeoCoordinate object."), self)
  end.

Definition __init__ (self : GeoCoordinateExtent) (start end_ : object)
  : result GeoCoordinateExtent :=
  let (r1, self1) := set_start start self in
  let? _ := r1 in
  let (r2, self2) := set_end end_ self1 in
  let? _ := r2 in
  Ok self2.

(** [GeoCoordinateExtent(start, end)]; the fields of the object before
    [__init__] are never read. *)
Definition new (start end_ : object) : result GeoCoordinateExtent :=
  __init__ {| _start := Coordinate.fresh; _end := Coordinate.fresh |}
           start end_.

Definition to_tuple (self : GeoCoordinateExtent) : Q * Q * Q * Q :=
  (Coordinate.longitude (start self), Coordinate.latitude (end_ self),
   Coordinate.longitude (end_ self), Coordinate.latitude (start self)).

Definition to_list (self : GeoCoordinateExtent) : list Q :=
  [Coordinate.longitude (start self); Coordinate.latitude (end_ self);
   Coordinate.longitude (end_ self); Coordinate.latitude (start self)].

Definition to_dict (self : GeoCoordinateExtent) : gmap string Q :=
  <["left" := Coordinate.longitude (start self)]>
    (<["bottom" := Coordinate.latitude (start self)]>
      (<["right" := Coordinate.longitude (end_ self)]>
        (<["top" := Coordinate.latitude (end_ self)]> ∅))).

(** [self.start == other.start and self.end == other.end]: the second
    comparison runs only when the first is true. *)
Definition __eq__ (self : GeoCoordinateExtent) (other : object)
  : result bool :=
  match other with
  | PyExtent other =>
      let? same_start :=
        Coordinate.__eq__ (start self) (PyCoordinate (start other)) in
      if same_start then
        Coordinate.__eq__ (end_ self) (PyCoordinate (end_ other))
      else Ok false
  | _ =>
      Raise (GeoCoordinateError
        "Cannot compare GeoCoordinateExtent with non-GeoCoordinateExtent object.")
  end.

(** [self.start != other.start or self.end != other.end]: the second
    comparison runs only when the first is false. *)
Definition __ne__ (self : GeoCoordinateExtent) (other : object)
  : result bool :=
  match other with
  | PyExtent other =>
      let? other_start :=
        Coordinate.__ne__ (start self) (PyCoordinate (start other)) in
      if other_start then Ok true
      else Coordinate.__ne__ (end_ self) (PyCoordinate (end_ other))
  | _ =>
      Raise (GeoCoordinateError
        "Cannot compare GeoCoordinateExtent with non-GeoCoordinateExtent object.")
  end.

End Extent.

(** ** The raster handle of [rasterio]

    What the code uses of an opened dataset [src]: [~src.transform * (x, y)],
    the inverse of the affine transform applied to a point; [src.width] and
    [src.height]; [src.read(band, window=window)]. *)

Record Window : Type := {
  col_off : Z;
  row_off : Z;
  window_width : Z;
  window_height : Z
}.

Record DatasetReader : Type := {
  inverse_transform : Q * Q -> Q * Q;
  width : Z;
  height : Z;
  read : Z -> Window -> result ndarray
}.

(** ** utils/extent.py *)

(** The window of [clip_tiff_to_extent], up to the [Window(...)] call: the
    four arguments the call receives. *)
Definition clip_window (src : DatasetReader) (extent : GeoCoordinateExtent)
  : Window :=
  let '(left', bottom, right', top) := Extent.to_tuple extent in
  let (row_min, col_min) := inverse_transform src (left', top) in
  let (row_max, col_max) := inverse_transform src (right', bottom) in
  let (row_min, col_min) := (int row_min, int col_min) in
  let (row_max, col_max) := (int row_max, int col_max) in
  let row_min := Z.max 0 row_min in
  let col_min := Z.max 0 col_min in
  let row_max := Z.min (height src) row_max in
  let col_max := Z.min (width src) col_max in
  {| col_off := col_min; row_off := row_min;
     window_width := (col_max - col_min)%Z;
     window_height := (row_max - row_min)%Z |}.

Definition window_message : string :=
  "Number of columns or rows must be non-negative".

(** The [Window(col_off, row_off, width, height)] call of [rasterio]: its
    validators reject a negative width, then a negative height. *)
Definition validate_window (arguments : Window) : result Window :=
  if (window_width arguments <? 0)%Z then Raise (ValueError window_message)
  else if (window_height arguments <? 0)%Z then
    Raise (ValueError window_message)
  else Ok arguments.

Definition clip_tiff_to_extent (src : DatasetReader)
  (extent : GeoCoordinateExtent) : result ndarray :=
  let? window := validate_window (clip_window src extent) in
  let? clipped_data := read src 1%Z window in
  Ok clipped_data.

(** [clipped_data[clipped_data > 0]]: the samples above zero, flattened row
    by row. *)
Definition positive_samples (clipped_data : ndarray) : list Q :=
  List.filter (fun v => Qlt_bool 0 v) (concat clipped_data).

Definition get_population_density_in_extent (extent : GeoCoordinateExtent)
  (src : DatasetReader) (mode : string) : result npfloat :=
  let? clipped_data := clip_tiff_to_extent src extent in
  let clipped_data := positive_samples clipped_data in
  if String.eqb mode "mean" then np_mean clipped_data
  else if String.eqb mode "max" then np_max clipped_data
  else if String.eqb mode "min" then np_min clipped_data
  else Raise (ValueError "Mode must be 'mean', 'max', or 'min'").

(** ** utils/pixel.py *)

Definition get_value_from_coordinates (coordinate : GeoCoordinate)
  (src : DatasetReader) (data : ndarray) : result (option Q) :=
  let? inverted := Coordinate.inverted coordinate in
  let (col, row) := inverse_transform src (Coordinate.to_tuple inverted) in
  if Qle_bool 0 col && Qlt_bool col (inject_Z (width src))
     && Qle_bool 0 row && Qlt_bool row (inject_Z (height src))
  then
    let? pixel_value := getitem data (int row) (int col) in
    Ok (Some pixel_value)
  else
    Ok None.

(** ** The statements of the specification *)

(** The bounding box of an extent in the words of the specification:
    left, bottom, right and top are the longitude and the latitude of
    [start], then those of [end]. *)
Definition bounding_box (extent : GeoCoordinateExtent) : Q * Q * Q * Q :=
  (Coordinate.longitude (Extent.start extent),
   Coordinate.latitude (Extent.start extent),
   Coordinate.longitude (Extent.end_ extent),
   Coordinate.latitude (Extent.end_ extent)).

(** The extent with the latitudes of its two corners exchanged. *)
Definition exchange_latitudes (extent : GeoCoordinateExtent)
  : GeoCoordinateExtent :=
  {| _start := {| _latitude := Coordinate.latitude (Extent.end_ extent);
                  _longitude := Coordinate.longitude (Extent.start extent) |};
     _end := {| _latitude := Coordinate.latitude (Extent.start extent);
                _longitude := Coordinate.longitude (Extent.end_ extent) |} |}.

(** [extent_to_window] in the words of the specification: the inverse
    transform of the corner (left, top) and of the corner (right, bottom) of
    the bounding box, truncated, clamped, and turned into offsets and
    sizes. *)
Definition extent_to_window (extent : GeoCoordinateExtent)
  (inverse : Q * Q -> Q * Q) (raster_width raster_height : Z) : Window :=
  let '(left', bottom, right', top) := bounding_box extent in
  let (row, col) := inverse (left', top) in
  let (row_max, col_max) := inverse (right', bottom) in
  let row_min := Z.max 0 (int row) in
  let col_min := Z.max 0 (int col) in
  let row_max := Z.min raster_height (int row_max) in
  let col_max := Z.min raster_width (int col_max) in
  {| col_off := col_min; row_off := row_min;
     window_width := (col_max - col_min)%Z;
     window_height := (row_max - row_min)%Z |}.

(** The bounds check of the pixel lookup on a fractional (col, row). *)
Definition in_bounds (src : DatasetReader) (col row : Q) : Prop :=
  (0 <= col /\ col < inject_Z (width src))
  /\ (0 <= row /\ row < inject_Z (height src)).

(** ** The distance in the words of the specification *)

(** R(phi): the radius of curvature of the WGS84 ellipsoid at a geodetic
    latitude given in degrees. *)
Definition radius_of_curvature (latitude_degrees : R) : R :=
  let phi := radians latitude_degrees in
  (sqrt ((Coordinate.wgs84_a ^ 2 * cos phi) ^ 2
         + (Coordinate.wgs84_b ^ 2 * sin phi) ^ 2)
   / sqrt ((Coordinate.wgs84_a * cos phi) ^ 2
           + (Coordinate.wgs84_b * sin phi) ^ 2))%R.

(** The haversine of the central angle between two points given in
    radians. *)
Definition haversine (phi1 lambda1 phi2 lambda2 : R) : R :=
  (Rsqr (sin ((phi2 - phi1) / 2))
   + cos phi1 * cos phi2 * Rsqr (sin ((lambda2 - lambda1) / 2)))%R.

(** The central angle c between two coordinates. *)
Definition central_angle (a b : GeoCoordinate) : R :=
  let h := haversine (radians (Q2R (Coordinate.latitude a)))
                     (radians (Q2R (Coordinate.longitude a)))
                     (radians (Q2R (Coordinate.latitude b)))
                     (radians (Q2R (Coordinate.longitude b))) in
  (2 * atan2 (sqrt h) (sqrt (1 - h)))%R.

(** steps = max(floor(c / step), 1). *)
Definition segment_count (c : R) (step : Q) : nat :=
  Z.to_nat (Z.max (Int_part (c / Q2R step)) 1).

(** The latitude, in radians, at the fraction [i / steps] of the way from
    the first coordinate to the second. *)
Definition interpolated_latitude (a b : GeoCoordinate) (steps i : nat) : R :=
  let phi1 := radians (Q2R (Coordinate.latitude a)) in
  let phi2 := radians (Q2R (Coordinate.latitude b)) in
  (phi1 + INR i / INR steps * (phi2 - phi1))%R.

(** The sum of [term 0], ..., [term (n - 1)]. *)
Fixpoint leading_sum (term : nat -> R) (n : nat) : R :=
  match n with
  | O => 0%R
  | S k => (leading_sum term k + term k)%R
  end.

(** The distance for [step == 0]: one radius, at the mean of the two
    latitudes in degrees. *)
Definition direct_distance (a b : GeoCoordinate) : R :=
  (radius_of_curvature
     ((Q2R (Coordinate.latitude a) + Q2R (Coordinate.latitude b)) / 2)
   * central_angle a b)%R.

(** The distance for [step > 0]: over the first [steps] of the [steps + 1]
    interpolated latitudes, the radius there times [c / steps]. *)
Definition stepped_distance (a b : GeoCoordinate) (step : Q) : R :=
  let c := central_angle a b in
  let steps := segment_count c step in
  leading_sum
    (fun i =>
       (radius_of_curvature (degrees (interpolated_latitude a b steps i))
        * (c / INR steps))%R)
    steps.

(** ** Sample inputs *)

(** The extent of the specification's example: start (40, -4), end
    (41, -3). *)
Definition sample_extent : GeoCoordinateExtent :=
  {| _start := {| _latitude := 40; _longitude := -4 |};
     _end := {| _latitude := 41; _longitude := -3 |} |}.

(** A north-up raster of 20 by 20 pixels of one degree, with its top-left
    corner at longitude -10 and latitude 45: the inverse transform of
    [(x, y)] is [(x + 10, 45 - y)].  Its band holds no positive sample. *)
Definition sample_raster : DatasetReader :=
  {| inverse_transform := fun p => (fst p + 10, 45 - snd p);
     width := 20;
     height := 20;
     read := fun _ _ => Ok [[0; -1]; [0; 0]] |}.

(** An extent given from its north-west corner (43, -6) to its south-east
    corner (41, -4): on the sample raster its window is two columns by two
    rows. *)
Definition north_west_extent : GeoCoordinateExtent :=
  {| _start := {| _latitude := 43; _longitude := -6 |};
     _end := {| _latitude := 41; _longitude := -4 |} |}.

(** The sample raster with a band that holds the samples 10, 0, 30, 20. *)
Definition populated_raster : DatasetReader :=
  {| inverse_transform := inverse_transform sample_raster;
     width := 20;
     height := 20;
     read := fun _ _ => Ok [[10; 0]; [30; 20]] |}.

(** The sample raster with a band that cannot be read. *)
Definition unreadable_raster : DatasetReader :=
  {| inverse_transform := inverse_transform sample_raster;
     width := 20;
     height := 20;
     read := fun _ _ => Raise IndexError |}.

(** A raster of one pixel whose inverse transform sends longitude 100 and
    latitude 0 to the pixel (0, 0). *)
Definition far_east_raster : DatasetReader :=
  {| inverse_transform := fun p => (fst p - 100, snd p);
     width := 1;
     height := 1;
     read := fun _ _ => Ok [[7]] |}.

(** * Properties *)

(** ** The bounds check of a coordinate *)

Section CoordinateBounds.

Import Coordinate.

Lemma in_range_bool (lo hi value : Q) :
  Qle_bool lo value && Qle_bool value hi = true <-> lo <= value /\ value <= hi.
Proof.
  rewrite andb_true_iff, !Qle_bool_iff. tauto.
Qed.

Lemma out_of_range_bool (lo hi value : Q) :
  Qle_bool lo value && Qle_bool value hi = false <->
  ~ (lo <= value /\ value <= hi).
Proof.
  rewrite <- in_range_bool.
  destruct (Qle_bool lo value && Qle_bool value hi); intuition congruence.
Qed.

Lemma set_latitude_ok (value : Q) (self : GeoCoordinate) :
  in_latitude_range value ->
  set_latitude value self =
    (Ok tt, {| _latitude := value; _longitude := _longitude self |}).
Proof.
  intros H. apply in_range_bool in H.
  unfold set_latitude. now rewrite H.
Qed.

Lemma set_latitude_raise (value : Q) (self : GeoCoordinate) :
  ~ in_latitude_range value ->
  set_latitude value self = (Raise (GeoCoordinateError latitude_message), self).
Proof.
  intros H. apply out_of_range_bool in H.
  unfold set_latitude. now rewrite H.
Qed.

Lemma set_longitude_ok (value : Q) (self : GeoCoordinate) :
  in_longitude_range value ->
  set_longitude value self =
    (Ok tt, {| _latitude := _latitude self; _longitude := value |}).
Proof.
  intros H. apply in_range_bool in H.
  unfold set_longitude. now rewrite H.
Qed.

Lemma set_longitude_raise (value : Q) (self : GeoCoordinate) :
  ~ in_longitude_range value ->
  set_longitude value self =
    (Raise (GeoCoordinateError longitude_message), self).
Proof.
  intros H. apply out_of_range_bool in H.
  unfold set_longitude. now rewrite H.
Qed.

Lemma in_latitude_range_dec (value : Q) :
  {in_latitude_range value} + {~ in_latitude_range value}.
Proof.
  destruct (Qle_bool (-90) value && Qle_bool value 90) eqn:E.
  - left. now apply in_range_bool.
  - right. now apply out_of_range_bool.
Qed.

Lemma in_longitude_range_dec (value : Q) :
  {in_longitude_range value} + {~ in_longitude_range value}.
Proof.
  destruct (Qle_bool (-180) value && Qle_bool value 180) eqn:E.
  - left. now apply in_range_bool.
  - right. now apply out_of_range_bool.
Qed.

(** The constructor never reads the object it starts from. *)
Lemma init_any_fresh (self : GeoCoordinate) (lat lon : Q) :
  __init__ self lat lon = new lat lon.
Proof.
  unfold new, __init__, set_latitude, set_longitude.
  destruct (negb (Qle_bool (-90) lat && Qle_bool lat 90)); [reflexivity |].
  cbn. now destruct (negb (Qle_bool (-180) lon && Qle_bool lon 180)).
Qed.

Lemma new_ok (lat lon : Q) :
  in_latitude_range lat -> in_longitude_range lon ->
  new lat lon = Ok {| _latitude := lat; _longitude := lon |}.
Proof.
  intros Hlat Hlon. unfold new, __init__.
  rewrite set_latitude_ok by assumption. cbn.
  now rewrite set_longitude_ok by assumption.
Qed.

Lemma new_latitude_raise (lat lon : Q) :
  ~ in_latitude_range lat ->
  new lat lon = Raise (GeoCoordinateError latitude_message).
Proof.
  intros H. unfold new, __init__. now rewrite set_latitude_raise.
Qed.

Lemma new_longitude_raise (lat lon : Q) :
  in_latitude_range lat -> ~ in_longitude_range lon ->
  new lat lon = Raise (GeoCoordinateError longitude_message).
Proof.
  intros Hlat Hlon. unfold new, __init__.
  rewrite set_latitude_ok by assumption. cbn.
  now rewrite set_longitude_raise.
Qed.

Lemma new_raise (lat lon : Q) :
  ~ in_latitude_range lat \/ ~ in_longitude_range lon ->
  exists message, new lat lon = Raise (GeoCoordinateError message).
Proof.
  intros H. destruct (in_latitude_range_dec lat) as [Hlat | Hlat].
  - destruct H as [H | H]; [contradiction |].
    eexists. now apply new_longitude_raise.
  - eexists. now apply new_latitude_raise.
Qed.

(** The constructor succeeds exactly on the pairs in range, and then stores
    them as they are. *)
Lemma new_succeeds_iff (lat lon : Q) :
  succeeds (new lat lon) <-> in_latitude_range lat /\ in_longitude_range lon.
Proof.
  split.
  - intros [c Hc].
    destruct (in_latitude_range_dec lat) as [Hlat | Hlat].
    + destruct (in_longitude_range_dec lon) as [Hlon | Hlon]; [tauto |].
      rewrite new_longitude_raise in Hc by assumption. discriminate.
    + rewrite new_latitude_raise in Hc by assumption. discriminate.
  - intros [Hlat Hlon]. eexists. now apply new_ok.
Qed.

(** The class invariant: every object the constructor returns is valid, and
    both setters keep a valid object valid, whatever their outcome. *)
Lemma new_valid (lat lon : Q) (c : GeoCoordinate) :
  new lat lon = Ok c -> valid c.
Proof.
  intros H.
  assert (Hr : in_latitude_range lat /\ in_longitude_range lon)
    by (apply new_succeeds_iff; now exists c).
  destruct Hr as [Hlat Hlon].
  rewrite new_ok in H by assumption. injection H as <-. now split.
Qed.

Lemma set_latitude_valid (value : Q) (self : GeoCoordinate) :
  valid self -> valid (snd (set_latitude value self)).
Proof.
  intros Hv. destruct (in_latitude_range_dec value) as [H | H].
  - rewrite set_latitude_ok by assumption. split; [exact H | apply Hv].
  - now rewrite set_latitude_raise.
Qed.

Lemma set_longitude_valid (value : Q) (self : GeoCoordinate) :
  valid self -> valid (snd (set_longitude value self)).
Proof.
  intros Hv. destruct (in_longitude_range_dec value) as [H | H].
  - rewrite set_longitude_ok by assumption. split; [apply Hv | exact H].
  - now rewrite set_longitude_raise.
Qed.

End CoordinateBounds.

(** ** Construction, assignment, arithmetic and conversions *)

Section CoordinateClaims.

Import Coordinate.

(** C5.  Constructing a coordinate with the latitude outside [-90, 90] or the
    longitude outside [-180, 180] raises the coordinate error.  Assignment
    makes the same check before it stores anything: a rejected latitude or
    longitude leaves the whole object as it was, and an assignment to the
    longitude, rejected or not, never changes the latitude. *)
Theorem C5_out_of_range_rejected_before_any_change
  (lat lon : Q) (self : GeoCoordinate) :
  ~ in_latitude_range lat \/ ~ in_longitude_range lon ->
  (exists message, new lat lon = Raise (GeoCoordinateError message))
  /\ (~ in_latitude_range lat ->
      set_latitude lat self =
        (Raise (GeoCoordinateError latitude_message), self))
  /\ (~ in_longitude_range lon ->
      set_longitude lon self =
        (Raise (GeoCoordinateError longitude_message), self))
  /\ latitude (snd (set_longitude lon self)) = latitude self.
Proof.
  intros H. split; [now apply new_raise |].
  split; [apply set_latitude_raise |].
  split; [apply set_longitude_raise |].
  unfold set_longitude.
  now destruct (negb (Qle_bool (-180) lon && Qle_bool lon 180)).
Qed.

Lemma C5_witness :
  (exists message, new (-100) 200 = Raise (GeoCoordinateError message))
  /\ set_latitude (-100) {| _latitude := 10; _longitude := 20 |} =
       (Raise (GeoCoordinateError latitude_message),
        {| _latitude := 10; _longitude := 20 |})
  /\ set_longitude 200 {| _latitude := 10; _longitude := 20 |} =
       (Raise (GeoCoordinateError longitude_message),
        {| _latitude := 10; _longitude := 20 |}).
Proof.
  assert (Hlat : ~ in_latitude_range (-100))
    by (apply out_of_range_bool; reflexivity).
  assert (Hlon : ~ in_longitude_range 200)
    by (apply out_of_range_bool; reflexivity).
  destruct (C5_out_of_range_rejected_before_any_change
              (-100) 200 {| _latitude := 10; _longitude := 20 |}
              (or_introl Hlat)) as (Hnew & Hset_lat & Hset_lon & _).
  split; [exact Hnew |].
  split; [exact (Hset_lat Hlat) | exact (Hset_lon Hlon)].
Defined.

(** C6, amended.  For every pair of coordinates whose component-wise sum
    (resp. difference), as the code computes it, has its latitude outside
    [-90, 90] or its longitude outside [-180, 180], [a + b] (resp. [a - b])
    raises the coordinate error of the bounds check, the one of the latitude
    or the one of the longitude: the result is built by the constructor,
    which validates it again. *)
Theorem C6_arithmetic_is_validated (a b : GeoCoordinate) :
  (~ sum_in_range a b ->
   __add__ a (PyCoordinate b) = Raise (GeoCoordinateError latitude_message)
   \/ __add__ a (PyCoordinate b)
        = Raise (GeoCoordinateError longitude_message))
  /\ (~ difference_in_range a b ->
      __sub__ a (PyCoordinate b) = Raise (GeoCoordinateError latitude_message)
      \/ __sub__ a (PyCoordinate b)
           = Raise (GeoCoordinateError longitude_message)).
Proof.
  split; intros H; cbn.
  - destruct (in_latitude_range_dec
                (float_add (latitude a) (latitude b))) as [Hlat | Hlat].
    + right. apply new_longitude_raise; [exact Hlat |].
      intros Hlon. apply H. now split.
    + left. now apply new_latitude_raise.
  - destruct (in_latitude_range_dec
                (float_sub (latitude a) (latitude b))) as [Hlat | Hlat].
    + right. apply new_longitude_raise; [exact Hlat |].
      intros Hlon. apply H. now split.
    + left. now apply new_latitude_raise.
Qed.

Lemma C6_witness :
  __add__ {| _latitude := 80; _longitude := 20 |}
          (PyCoordinate {| _latitude := 80; _longitude := 20 |})
    = Raise (GeoCoordinateError latitude_message)
  \/ __add__ {| _latitude := 80; _longitude := 20 |}
             (PyCoordinate {| _latitude := 80; _longitude := 20 |})
       = Raise (GeoCoordinateError longitude_message).
Proof.
  apply (C6_arithmetic_is_validated
           {| _latitude := 80; _longitude := 20 |}
           {| _latitude := 80; _longitude := 20 |}).
  unfold sum_in_range. intros [H _].
  apply in_range_bool in H. vm_compute in H. discriminate H.
Defined.

(** C6, as stated, fails: no pair whose computed sum, or difference, is out
    of the domain is added, or subtracted, without an exception. *)
Lemma C6_counterexample : ~ unchecked_arithmetic.
Proof.
  intros [(a & b & _ & _ & Hout & Hok) | (a & b & _ & _ & Hout & Hok)];
    apply Hout; cbn in Hok; now apply new_succeeds_iff in Hok.
Qed.

(** C8.  For every valid coordinate, [inverted] succeeds exactly when the
    longitude lies in [-90, 90], and then returns the coordinate with the
    two fields swapped; when the longitude is below -90 or above 90 the
    constructor rejects it as a latitude, and the pixel lookup, which starts
    by evaluating [inverted], raises that same error on every raster and
    array. *)
Theorem C8_inverted_needs_longitude_in_latitude_range (c : GeoCoordinate) :
  valid c ->
  (succeeds (inverted c) <-> in_latitude_range (longitude c))
  /\ (in_latitude_range (longitude c) ->
      inverted c =
        Ok {| _latitude := longitude c; _longitude := latitude c |})
  /\ (longitude c < -90 \/ 90 < longitude c ->
      inverted c = Raise (GeoCoordinateError latitude_message)
      /\ forall src data,
           get_value_from_coordinates c src data =
             Raise (GeoCoordinateError latitude_message)).
Proof.
  intros [[Hlo Hhi] _].
  assert (Hlon : in_longitude_range (latitude c)).
  { split; [apply Qle_trans with (-90) | apply Qle_trans with 90];
      assumption || discriminate. }
  split; [| split].
  - unfold inverted. rewrite new_succeeds_iff. tauto.
  - intros H. unfold inverted. now apply new_ok.
  - intros H.
    assert (Hout : ~ in_latitude_range (longitude c)).
    { intros [H1 H2]. destruct H as [H | H].
      - exact (Qlt_not_le _ _ H H1).
      - exact (Qlt_not_le _ _ H H2). }
    assert (Hinv : inverted c = Raise (GeoCoordinateError latitude_message))
      by now apply new_latitude_raise.
    split; [exact Hinv |].
    intros src data. unfold get_value_from_coordinates. now rewrite Hinv.
Qed.

Lemma C8_witness :
  inverted {| _latitude := 10; _longitude := 100 |} =
    Raise (GeoCoordinateError latitude_message)
  /\ inverted {| _latitude := 10; _longitude := 20 |} =
       Ok {| _latitude := 20; _longitude := 10 |}.
Proof.
  split.
  - assert (Hv : valid {| _latitude := 10; _longitude := 100 |})
      by (split; apply in_range_bool; reflexivity).
    destruct (C8_inverted_needs_longitude_in_latitude_range _ Hv)
      as (_ & _ & H).
    apply H. right. reflexivity.
  - assert (Hv : valid {| _latitude := 10; _longitude := 20 |})
      by (split; apply in_range_bool; reflexivity).
    destruct (C8_inverted_needs_longitude_in_latitude_range _ Hv)
      as (_ & H & _).
    apply H. apply in_range_bool. reflexivity.
Defined.

(** C10.  For every latitude in [-90, 90] and longitude in [-180, 180] the
    constructor succeeds; the tuple and the list of the coordinate are
    (latitude, longitude) in that order, its dict has exactly the keys
    "latitude" and "longitude" with those values; and [from_tuple],
    [from_list] and [from_dict] give the coordinate back from each. *)
Theorem C10_conversions_round_trip (lat lon : Q) :
  in_latitude_range lat -> in_longitude_range lon ->
  exists c,
    new lat lon = Ok c
    /\ to_tuple c = (lat, lon)
    /\ to_list c = [lat; lon]
    /\ to_dict c !! "latitude" = Some lat
    /\ to_dict c !! "longitude" = Some lon
    /\ dom (to_dict c) = {["latitude"; "longitude"]}
    /\ from_tuple (to_tuple c) = Ok c
    /\ from_list (to_list c) = Ok c
    /\ from_dict (to_dict c) = Ok c
    /\ __eq__ c (PyCoordinate c) = Ok true.
Proof.
  intros Hlat Hlon. exists {| _latitude := lat; _longitude := lon |}.
  pose proof (new_ok lat lon Hlat Hlon) as Hnew.
  repeat split; try assumption; try reflexivity.
  cbn. now rewrite !Qeq_bool_refl.
Qed.

Lemma C10_witness :
  exists c,
    new 10 20 = Ok c
    /\ to_tuple c = (10, 20)
    /\ from_tuple (to_tuple c) = Ok c
    /\ from_list (to_list c) = Ok c
    /\ from_dict (to_dict c) = Ok c.
Proof.
  destruct (C10_conversions_round_trip 10 20) as (c & H).
  - apply in_range_bool. reflexivity.
  - apply in_range_bool. reflexivity.
  - exists c. tauto.
Defined.

End CoordinateClaims.

(** ** Extents and raster queries *)

Lemma to_dict_is_bounding_box (extent : GeoCoordinateExtent) :
  let '(left', bottom, right', top) := bounding_box extent in
  Extent.to_dict extent !! "left" = Some left'
  /\ Extent.to_dict extent !! "bottom" = Some bottom
  /\ Extent.to_dict extent !! "right" = Some right'
  /\ Extent.to_dict extent !! "top" = Some top.
Proof.
  cbn. repeat split; reflexivity.
Qed.

(** The tuple and the list hold the bounding box with bottom and top
    exchanged. *)
Lemma to_tuple_exchanges_latitudes (extent : GeoCoordinateExtent) :
  Extent.to_tuple extent = bounding_box (exchange_latitudes extent)
  /\ Extent.to_list extent =
       (let '(left', bottom, right', top) :=
          bounding_box (exchange_latitudes extent) in
        [left'; bottom; right'; top]).
Proof.
  split; reflexivity.
Qed.

(** C2, at the extent start (40, -4), end (41, -3): the dict follows the
    mapping left = start.longitude, bottom = start.latitude,
    right = end.longitude, top = end.latitude, but the tuple and the list,
    read as (left, bottom, right, top), carry end.latitude as bottom and
    start.latitude as top. *)
Theorem C2_tuple_and_list_exchange_bottom_and_top :
  Extent.to_dict sample_extent !! "left" = Some (-4)
  /\ Extent.to_dict sample_extent !! "bottom" = Some 40
  /\ Extent.to_dict sample_extent !! "right" = Some (-3)
  /\ Extent.to_dict sample_extent !! "top" = Some 41
  /\ bounding_box sample_extent = (-4, 40, -3, 41)
  /\ Extent.to_tuple sample_extent = (-4, 41, -3, 40)
  /\ Extent.to_list sample_extent = [-4; 41; -3; 40]
  /\ Extent.to_tuple sample_extent <> bounding_box sample_extent.
Proof.
  repeat split; try reflexivity. discriminate.
Qed.

(** The window of the code is the window of the specification for the
    extent with its two latitudes exchanged. *)
Lemma clip_window_exchanges_latitudes
  (src : DatasetReader) (extent : GeoCoordinateExtent) :
  clip_window src extent =
    extent_to_window (exchange_latitudes extent)
                     (inverse_transform src) (width src) (height src).
Proof.
  unfold clip_window, extent_to_window. cbn.
  destruct (inverse_transform src _) as [row_min col_min].
  now destruct (inverse_transform src _) as [row_max col_max].
Qed.

(** C3, at the extent start (40, -4), end (41, -3) on the sample raster:
    the specification maps the corner (left, top) = (-4, 41) and the corner
    (right, bottom) = (-3, 40) and gets the window (4, 6, 1, 1); the code
    unpacks the tuple, maps (-4, 40) and (-3, 41) and gets the window
    (5, 6, -1, 1). *)
Theorem C3_window_uses_exchanged_corners :
  extent_to_window sample_extent (inverse_transform sample_raster)
                   (width sample_raster) (height sample_raster)
    = {| col_off := 4; row_off := 6;
         window_width := 1; window_height := 1 |}
  /\ clip_window sample_raster sample_extent
       = {| col_off := 5; row_off := 6;
            window_width := -1; window_height := 1 |}.
Proof.
  split; reflexivity.
Qed.

(** C4, amended.  For every extent and raster whose window is accepted and
    read and holds no sample above zero, the aggregate with mode "max" or
    "min" raises the [ValueError] of [numpy] for a reduction of an empty
    array ("zero-size array to reduction operation maximum which has no
    identity", resp. "minimum"), and with mode "mean" it raises nothing and
    returns NaN. *)
Theorem C4_empty_selection
  (extent : GeoCoordinateExtent) (src : DatasetReader) (data : ndarray) :
  clip_tiff_to_extent src extent = Ok data ->
  positive_samples data = [] ->
  get_population_density_in_extent extent src "mean" = Ok NaN
  /\ get_population_density_in_extent extent src "max" =
       Raise (ValueError
         "zero-size array to reduction operation maximum which has no identity")
  /\ get_population_density_in_extent extent src "min" =
       Raise (ValueError
         "zero-size array to reduction operation minimum which has no identity").
Proof.
  intros Hclip Hempty. unfold get_population_density_in_extent.
  rewrite Hclip. cbn. rewrite Hempty.
  repeat split; reflexivity.
Qed.

Lemma C4_witness :
  get_population_density_in_extent north_west_extent sample_raster "mean"
    = Ok NaN
  /\ get_population_density_in_extent north_west_extent sample_raster "max" =
       Raise (ValueError
         "zero-size array to reduction operation maximum which has no identity")
  /\ get_population_density_in_extent north_west_extent sample_raster "min" =
       Raise (ValueError
         "zero-size array to reduction operation minimum which has no identity").
Proof.
  apply (C4_empty_selection north_west_extent sample_raster
                            [[0; -1]; [0; 0]]);
    reflexivity.
Defined.

(** C4, as stated, fails for the mean.  The extent from (43, -6) to (41, -4)
    has on the sample raster the window (2, 4, 2, 2), which is accepted; the
    band read there holds the samples 0, -1, 0, 0; nothing is left after the
    filter, and the mean is returned as NaN, without an exception. *)
Lemma C4_counterexample :
  validate_window (clip_window sample_raster north_west_extent)
    = Ok {| col_off := 2; row_off := 4;
            window_width := 2; window_height := 2 |}
  /\ clip_tiff_to_extent sample_raster north_west_extent
       = Ok [[0; -1]; [0; 0]]
  /\ positive_samples [[0; -1]; [0; 0]] = []
  /\ get_population_density_in_extent north_west_extent sample_raster "mean"
       = Ok NaN
  /\ ~ raises
       (get_population_density_in_extent
          north_west_extent sample_raster "mean").
Proof.
  repeat split; try reflexivity. intros [e He]. discriminate He.
Qed.

Lemma Qlt_bool_iff (x y : Q) : Qlt_bool x y = true <-> x < y.
Proof.
  unfold Qlt_bool. rewrite negb_true_iff, <- not_true_iff_false, Qle_bool_iff.
  split; [apply Qnot_le_lt | apply Qlt_not_le].
Qed.

Lemma in_bounds_bool (src : DatasetReader) (col row : Q) :
  Qle_bool 0 col && Qlt_bool col (inject_Z (width src))
  && Qle_bool 0 row && Qlt_bool row (inject_Z (height src)) = true
  <-> in_bounds src col row.
Proof.
  unfold in_bounds.
  rewrite !andb_true_iff, !Qle_bool_iff, !Qlt_bool_iff. tauto.
Qed.

(** The pixel lookup on the coordinates whose longitude is also a latitude:
    outside the bounds the result is [None], inside it is the element of the
    array at the truncated (row, col). *)
Lemma get_value_from_coordinates_in_latitude_band
  (c : GeoCoordinate) (src : DatasetReader) (data : ndarray) (col row : Q) :
  Coordinate.valid c ->
  Coordinate.in_latitude_range (Coordinate.longitude c) ->
  inverse_transform src (Coordinate.longitude c, Coordinate.latitude c)
    = (col, row) ->
  (in_bounds src col row ->
   get_value_from_coordinates c src data =
     (let? pixel_value := getitem data (int row) (int col) in
      Ok (Some pixel_value)))
  /\ (~ in_bounds src col row ->
      get_value_from_coordinates c src data = Ok None).
Proof.
  intros Hv Hband Hinv.
  assert (Hc : Coordinate.inverted c =
               Ok {| _latitude := Coordinate.longitude c;
                     _longitude := Coordinate.latitude c |}).
  { apply new_ok; [exact Hband |].
    destruct Hv as [[Hlo Hhi] _].
    split; [apply Qle_trans with (-90) | apply Qle_trans with 90];
      assumption || discriminate. }
  unfold get_value_from_coordinates. rewrite Hc.
  unfold Coordinate.to_tuple, Coordinate.latitude, Coordinate.longitude in *.
  cbn [bind _latitude _longitude]. rewrite Hinv.
  destruct (Qle_bool 0 col && Qlt_bool col (inject_Z (width src))
            && Qle_bool 0 row && Qlt_bool row (inject_Z (height src)))
    eqn:E.
  - split; [reflexivity |]. intros H. exfalso. apply H.
    now apply in_bounds_bool.
  - split; [| reflexivity]. intros H. apply in_bounds_bool in H.
    congruence.
Qed.

(** C7, at longitude 100 and latitude 0 on the one-pixel raster: the
    coordinate is valid, its inverse transform (0, 0) is inside the bounds
    and the array holds 7 there, yet the lookup raises the coordinate error;
    so does the lookup of a coordinate that falls outside the bounds. *)
Theorem C7_lookup_raises_beyond_longitude_90 :
  Coordinate.new 0 100 = Ok {| _latitude := 0; _longitude := 100 |}
  /\ inverse_transform far_east_raster (100, 0) = (100 - 100, 0)
  /\ in_bounds far_east_raster (100 - 100) 0
  /\ getitem [[7]] (int 0) (int (100 - 100)) = Ok 7
  /\ get_value_from_coordinates
       {| _latitude := 0; _longitude := 100 |} far_east_raster [[7]]
     = Raise (GeoCoordinateError Coordinate.latitude_message)
  /\ ~ in_bounds far_east_raster (120 - 100) 0
  /\ get_value_from_coordinates
       {| _latitude := 0; _longitude := 120 |} far_east_raster [[7]]
     = Raise (GeoCoordinateError Coordinate.latitude_message).
Proof.
  repeat split; try reflexivity; try discriminate.
  intros [[_ H] _]. revert H. apply Qle_not_lt. discriminate.
Qed.

(** ** The distance between two coordinates *)

Section Distance.

Import Coordinate.

Local Open Scope R_scope.

Lemma sin_cos_square (x : R) : sin x * sin x + cos x * cos x = 1.
Proof.
  pose proof (sin2_cos2 x) as H. unfold Rsqr in H. exact H.
Qed.

Lemma ellipse_denominator_positive (p q x : R) :
  0 < p -> 0 < q -> 0 < (p * cos x) ^ 2 + (q * sin x) ^ 2.
Proof.
  intros Hp Hq. pose proof (sin_cos_square x) as H.
  destruct (Req_dec (cos x) 0) as [Hc | Hc].
  - rewrite Hc in *.
    assert (Hs : sin x <> 0) by (intros E; rewrite E in H; lra).
    assert (Hn : q * sin x <> 0) by nra.
    pose proof (Rsqr_pos_lt _ Hn) as Hsq. unfold Rsqr in Hsq. nra.
  - assert (Hn : p * cos x <> 0) by nra.
    pose proof (Rsqr_pos_lt _ Hn) as Hsq. unfold Rsqr in Hsq. nra.
Qed.

Lemma wgs84_positive : 0 < wgs84_a /\ 0 < wgs84_b.
Proof.
  unfold wgs84_a, wgs84_b. split; lra.
Qed.

(** [earth_radius] never raises: its divisor is positive and its quotient is
    not negative; it returns the radius of curvature. *)
Lemma earth_radius_total (latitude : R) :
  earth_radius latitude = Ok (radius_of_curvature latitude).
Proof.
  destruct wgs84_positive as [Ha Hb].
  unfold earth_radius, radius_of_curvature.
  set (phi := radians latitude).
  pose proof (ellipse_denominator_positive wgs84_a wgs84_b phi Ha Hb)
    as Hden.
  set (den := (wgs84_a * cos phi) ^ 2 + (wgs84_b * sin phi) ^ 2) in *.
  set (num := (wgs84_a ^ 2 * cos phi) ^ 2 + (wgs84_b ^ 2 * sin phi) ^ 2).
  assert (Hnum : 0 <= num).
  { unfold num. apply Rplus_le_le_0_compat; apply pow2_ge_0. }
  unfold truediv. destruct (Req_dec_T den 0) as [E | _]; [lra |].
  cbn [bind]. unfold math_sqrt.
  destruct (Rlt_dec (num / den) 0) as [Hneg | _].
  - exfalso. apply (Rlt_not_le _ _ Hneg).
    apply Rmult_le_pos; [exact Hnum |].
    left. now apply Rinv_0_lt_compat.
  - cbn [bind]. f_equal. now apply sqrt_div_alt.
Qed.

Lemma Q2R_integer (z : Z) : Q2R (inject_Z z) = IZR z.
Proof.
  unfold Q2R, inject_Z. cbn. field.
Qed.

(** A latitude in range, in radians, lies between [- PI / 2] and
    [PI / 2]. *)
Lemma radians_latitude_range (value : Q) :
  in_latitude_range value ->
  - (PI / 2) <= radians (Q2R value) <= PI / 2.
Proof.
  intros [Hlo Hhi]. apply Qle_Rle in Hlo, Hhi.
  change (-90)%Q with (inject_Z (-90)) in Hlo.
  change 90%Q with (inject_Z 90) in Hhi.
  rewrite Q2R_integer in Hlo, Hhi.
  pose proof PI_RGT_0 as Hpi. unfold radians. split; nra.
Qed.

(** The haversine of two points whose latitudes are in range lies between 0
    and 1, so neither square root of the central angle is out of its
    domain. *)
Lemma haversine_range (phi1 lambda1 phi2 lambda2 : R) :
  - (PI / 2) <= phi1 <= PI / 2 ->
  - (PI / 2) <= phi2 <= PI / 2 ->
  0 <= haversine phi1 lambda1 phi2 lambda2 <= 1.
Proof.
  intros [H1 H1'] [H2 H2'].
  pose proof (cos_ge_0 phi1 H1 H1') as Hc1.
  pose proof (cos_ge_0 phi2 H2 H2') as Hc2.
  unfold haversine, Rsqr.
  set (u := (phi2 - phi1) / 2).
  set (m := (phi2 + phi1) / 2).
  set (v := (lambda2 - lambda1) / 2).
  assert (E1 : cos phi1 = cos m * cos u + sin m * sin u).
  { replace phi1 with (m - u) by (unfold m, u; lra). apply cos_minus. }
  assert (E2 : cos phi2 = cos m * cos u - sin m * sin u).
  { replace phi2 with (m + u) by (unfold m, u; lra). apply cos_plus. }
  pose proof (sin_cos_square u) as Hu.
  pose proof (sin_cos_square m) as Hm.
  pose proof (sin_cos_square v) as Hv.
  assert (Hcc : 0 <= cos phi1 * cos phi2) by now apply Rmult_le_pos.
  assert (Hsv : 0 <= sin v * sin v <= 1) by nra.
  assert (Hprod : cos phi1 * cos phi2 = cos m * cos m - sin u * sin u).
  { rewrite E1, E2. nra. }
  split.
  - assert (0 <= cos phi1 * cos phi2 * (sin v * sin v))
      by (apply Rmult_le_pos; tauto).
    nra.
  - assert (cos phi1 * cos phi2 * (sin v * sin v) <= cos phi1 * cos phi2).
    { rewrite <- (Rmult_1_r (cos phi1 * cos phi2)) at 2.
      apply Rmult_le_compat_l; tauto. }
    nra.
Qed.

(** [atan2] of a point of the first quadrant is not negative. *)
Lemma atan2_nonneg (y x : R) : 0 <= y -> 0 <= x -> 0 <= atan2 y x.
Proof.
  intros Hy Hx. pose proof PI_RGT_0 as Hpi. unfold atan2.
  destruct (Rlt_dec 0 x) as [Hpos | _].
  - destruct Hy as [Hy | <-].
    + left. rewrite <- atan_0. apply atan_increasing.
      now apply Rdiv_lt_0_compat.
    + right. unfold Rdiv. now rewrite Rmult_0_l, atan_0.
  - destruct (Rlt_dec x 0) as [Hneg | _]; [lra |].
    destruct (Rlt_dec 0 y) as [_ | _]; [lra |].
    destruct (Rlt_dec y 0) as [Hneg | _]; lra.
Qed.

Lemma atan2_0_1 : atan2 0 1 = 0.
Proof.
  unfold atan2. destruct (Rlt_dec 0 1) as [_ | H]; [| lra].
  unfold Rdiv. now rewrite Rmult_0_l, atan_0.
Qed.

(** On a float that is not negative, [int] is the floor. *)
Lemma int_of_float_floor (x : R) : 0 <= x -> int_of_float x = Int_part x.
Proof.
  intros H. unfold int_of_float. now destruct (Rle_dec 0 x).
Qed.

Lemma Int_part_0 : Int_part 0 = 0%Z.
Proof.
  symmetry. apply Int_part_spec. lra.
Qed.

Lemma comprehension_total {A B : Type}
  (f : A -> result B) (g : A -> B) (l : list A) :
  (forall x, f x = Ok (g x)) -> comprehension f l = Ok (map g l).
Proof.
  intros H. induction l as [| x l IH]; [reflexivity |].
  cbn. now rewrite H, IH.
Qed.

Lemma np_sum_snoc (l : list R) (x : R) : np_sum (l ++ [x]) = np_sum l + x.
Proof.
  unfold np_sum. induction l as [| y l IH]; cbn; [lra |].
  rewrite IH. lra.
Qed.

(** Dropping the last of [n + 1] radii and summing the segments is the sum
    over the leading radius of each of the [n] segments. *)
Lemma np_sum_leading (radius : nat -> R) (segment : R) (n : nat) :
  np_sum (map (fun r => r * segment)
              (removelast (map radius (seq 0 (S n)))))
  = leading_sum (fun i => radius i * segment) n.
Proof.
  rewrite seq_S, map_app. cbn [map]. rewrite removelast_last.
  induction n as [| n IH]; [reflexivity |].
  rewrite seq_S, !map_app. cbn [map]. rewrite np_sum_snoc, IH.
  reflexivity.
Qed.

Lemma leading_sum_ext (f g : nat -> R) (n : nat) :
  (forall i, f i = g i) -> leading_sum f n = leading_sum g n.
Proof.
  intros H. induction n as [| n IH]; [reflexivity |].
  cbn. now rewrite IH, H.
Qed.

Lemma math_sqrt_ok (x : R) : 0 <= x -> math_sqrt x = Ok (sqrt x).
Proof.
  intros H. unfold math_sqrt. destruct (Rlt_dec x 0); [lra | reflexivity].
Qed.

Lemma truediv_ok (x y : R) : y <> 0 -> truediv x y = Ok (x / y).
Proof.
  intros H. unfold truediv.
  destruct (Req_dec_T y 0); [contradiction | reflexivity].
Qed.

(** The haversine as the code writes it. *)
Lemma haversine_pow (phi1 lambda1 phi2 lambda2 : R) :
  sin ((phi2 - phi1) / 2) ^ 2
  + cos phi1 * cos phi2 * sin ((lambda2 - lambda1) / 2) ^ 2
  = haversine phi1 lambda1 phi2 lambda2.
Proof.
  unfold haversine. now rewrite !Rsqr_pow2.
Qed.

Lemma central_angle_nonneg (a b : GeoCoordinate) : 0 <= central_angle a b.
Proof.
  unfold central_angle. cbv zeta.
  assert (0 <= atan2 (sqrt (haversine
                              (radians (Q2R (latitude a)))
                              (radians (Q2R (longitude a)))
                              (radians (Q2R (latitude b)))
                              (radians (Q2R (longitude b)))))
                     (sqrt (1 - haversine
                                  (radians (Q2R (latitude a)))
                                  (radians (Q2R (longitude a)))
                                  (radians (Q2R (latitude b)))
                                  (radians (Q2R (longitude b))))))
    by (apply atan2_nonneg; apply sqrt_pos).
  lra.
Qed.

(** The first half of [distance_to]: when the haversine lies between 0 and 1
    both square roots are defined, and the rest runs on the central
    angle. *)
Lemma distance_to_central_angle (a b : GeoCoordinate) (step : Q) :
  0 <= haversine (radians (Q2R (latitude a))) (radians (Q2R (longitude a)))
                 (radians (Q2R (latitude b))) (radians (Q2R (longitude b)))
    <= 1 ->
  distance_to a (PyCoordinate b) step =
    (let c := central_angle a b in
     if Qeq_bool step 0 then
       let? R := earth_radius (Q2R ((latitude a + latitude b) / 2)) in
       Ok (R * c)
     else
       let? ratio := truediv c (Q2R step) in
       let steps := Z.max (int_of_float ratio) 1 in
       let? radii :=
         comprehension
           (fun lat => earth_radius (degrees lat))
           (map (fun fraction =>
                   radians (Q2R (latitude a))
                   + fraction * (radians (Q2R (latitude b))
                                 - radians (Q2R (latitude a))))
                (linspace 0 1 (Z.to_nat (steps + 1)))) in
       let? segment := truediv c (IZR steps) in
       Ok (np_sum (map (fun radius => radius * segment)
                       (removelast radii)))).
Proof.
  intros [Hlo Hhi].
  unfold distance_to, central_angle. cbv zeta.
  rewrite haversine_pow.
  rewrite math_sqrt_ok by exact Hlo. cbn [bind].
  rewrite math_sqrt_ok by lra. cbn [bind].
  reflexivity.
Qed.

Lemma valid_haversine_range (a b : GeoCoordinate) :
  valid a -> valid b ->
  0 <= haversine (radians (Q2R (latitude a))) (radians (Q2R (longitude a)))
                 (radians (Q2R (latitude b))) (radians (Q2R (longitude b)))
    <= 1.
Proof.
  intros [Ha _] [Hb _].
  apply haversine_range; now apply radians_latitude_range.
Qed.

Lemma Q2R_nonzero (step : Q) : Qeq_bool step 0 = false -> Q2R step <> 0.
Proof.
  intros H E. apply Qeq_bool_neq in H. apply H.
  apply eqR_Qeq. rewrite E. symmetry. apply RMicromega.Q2R_0.
Qed.

(** The second half of [distance_to] for a step that is not zero, on any
    central angle that is not negative. *)
Lemma stepped_branch (phi1 phi2 c : R) (step : Q) :
  0 <= c -> (0 < step)%Q ->
  (let? ratio := truediv c (Q2R step) in
   let steps := Z.max (int_of_float ratio) 1 in
   let? radii :=
     comprehension
       (fun lat => earth_radius (degrees lat))
       (map (fun fraction => phi1 + fraction * (phi2 - phi1))
            (linspace 0 1 (Z.to_nat (steps + 1)))) in
   let? segment := truediv c (IZR steps) in
   Ok (np_sum (map (fun radius => radius * segment) (removelast radii))))
  = Ok (leading_sum
          (fun i =>
             radius_of_curvature
               (degrees (phi1 + INR i / INR (segment_count c step)
                                * (phi2 - phi1)))
             * (c / INR (segment_count c step)))
          (segment_count c step)).
Proof.
  intros Hc Hstep.
  assert (Hs : 0 < Q2R step).
  { rewrite <- RMicromega.Q2R_0. now apply Qlt_Rlt. }
  rewrite truediv_ok by lra. cbn [bind]. cbv zeta.
  rewrite int_of_float_floor
    by (apply Rmult_le_pos; [exact Hc | left; now apply Rinv_0_lt_compat]).
  unfold segment_count.
  set (steps := Z.max (Int_part (c / Q2R step)) 1).
  assert (Hsteps : (1 <= steps)%Z) by (unfold steps; lia).
  set (n := Z.to_nat steps).
  assert (Hn : IZR steps = INR n).
  { unfold n. rewrite INR_IZR_INZ, Z2Nat.id by lia. reflexivity. }
  replace (Z.to_nat (steps + 1)) with (S n) by (unfold n; lia).
  rewrite (comprehension_total _
             (fun lat => radius_of_curvature (degrees lat)))
    by (intros lat; apply earth_radius_total).
  cbn [bind].
  assert (Hpos : 0 < INR n) by (rewrite <- Hn; apply IZR_lt; lia).
  rewrite truediv_ok by (rewrite Hn; lra). cbn [bind].
  f_equal. unfold linspace. rewrite !map_map, np_sum_leading.
  apply leading_sum_ext. intros i. rewrite Hn.
  replace (S n - 1)%nat with n by lia.
  do 3 f_equal. unfold Rdiv. ring.
Qed.

(** In exact arithmetic [distance_to] is the computation of the
    specification: on two valid coordinates it returns, for [step == 0],
    the radius of curvature at the mean of the two latitudes in degrees
    times the haversine central angle c of the coordinates in radians; for
    [step > 0], with steps = max(floor(c / step), 1), the sum over the first
    [steps] of the [steps + 1] evenly spaced fractions [i / steps] of the
    radius of curvature at the latitude interpolated linearly in radians,
    times [c / steps]. *)
Lemma distance_to_in_exact_arithmetic (a b : GeoCoordinate) (step : Q) :
  valid a -> valid b ->
  ((step == 0)%Q ->
   distance_to a (PyCoordinate b) step = Ok (direct_distance a b))
  /\ ((0 < step)%Q ->
      distance_to a (PyCoordinate b) step = Ok (stepped_distance a b step)).
Proof.
  intros Ha Hb.
  pose proof (valid_haversine_range a b Ha Hb) as Hh.
  split; intros Hstep; rewrite distance_to_central_angle by exact Hh;
    cbv zeta.
  - apply Qeq_bool_iff in Hstep. rewrite Hstep.
    rewrite earth_radius_total. cbn [bind]. unfold direct_distance.
    do 3 f_equal.
    rewrite Q2R_div by discriminate. rewrite Q2R_plus.
    change 2%Q with (inject_Z 2). now rewrite Q2R_integer.
  - assert (Hne : Qeq_bool step 0 = false).
    { apply not_true_iff_false. intros E. apply Qeq_bool_iff in E.
      rewrite E in Hstep. discriminate Hstep. }
    rewrite Hne.
    rewrite stepped_branch
      by (apply central_angle_nonneg || exact Hstep).
    reflexivity.
Qed.


(** The same haversine in binary64.  From (-82, -180) to (82, 0),
    [math.sin] and [math.cos] return 4459770905381437 / 2 ^ 52 for
    [sin(dlat / 2)], 2507119702494989 / 2 ^ 54 for [cos(lat1)] and for
    [cos(lat2)], and 1 for [sin(dlon / 2)]; squared, multiplied and added as
    the code does, each result rounded, they give [1 + 2 ^ -52], which is
    above 1. *)
Lemma antipodal_haversine_in_binary64 :
  (float_add
     (float_mul (4459770905381437 # 4503599627370496)
                (4459770905381437 # 4503599627370496))
     (float_mul
        (float_mul (2507119702494989 # 18014398509481984)
                   (2507119702494989 # 18014398509481984))
        (float_mul 1 1))
   == 1 + (1 # 4503599627370496))%Q.
Proof.
  apply Qeq_bool_iff. vm_compute. reflexivity.
Qed.

Lemma central_angle_coincident (x : GeoCoordinate) : central_angle x x = 0.
Proof.
  unfold central_angle, haversine. cbv zeta.
  rewrite !Rminus_diag.
  replace (0 / 2) with 0 by lra.
  rewrite sin_0, Rsqr_0, Rmult_0_r, Rplus_0_r, Rminus_0_r.
  rewrite sqrt_0, sqrt_1, atan2_0_1. lra.
Qed.

Lemma haversine_coincident (phi lambda : R) :
  haversine phi lambda phi lambda = 0.
Proof.
  unfold haversine. rewrite !Rminus_diag.
  replace (0 / 2) with 0 by lra.
  rewrite sin_0, Rsqr_0. ring.
Qed.

(** C9.  For every coordinate [x] and every [step >= 0], the distance from
    [x] to itself is returned, not raised, and is 0: the central angle is 0,
    the number of steps computed from it is at least 1, and neither
    [c / step] nor [c / steps] divides by zero. *)
Theorem C9_distance_to_itself_is_zero (x : GeoCoordinate) (step : Q) :
  (0 <= step)%Q ->
  central_angle x x = 0
  /\ (1 <= Z.max (int_of_float (central_angle x x / Q2R step)) 1)%Z
  /\ distance_to x (PyCoordinate x) step = Ok 0.
Proof.
  intros _. split; [apply central_angle_coincident |].
  split; [lia |].
  rewrite distance_to_central_angle
    by (rewrite haversine_coincident; lra).
  cbv zeta. rewrite central_angle_coincident.
  destruct (Qeq_bool step 0) eqn:E.
  - rewrite earth_radius_total. cbn [bind]. f_equal. ring.
  - rewrite truediv_ok by now apply Q2R_nonzero.
    cbn [bind]. cbv zeta.
    replace (0 / Q2R step) with 0 by (unfold Rdiv; ring).
    rewrite int_of_float_floor by lra. rewrite Int_part_0.
    change (Z.max 0 1) with 1%Z. change (Z.to_nat (1 + 1)) with 2%nat.
    rewrite (comprehension_total _
               (fun lat => radius_of_curvature (degrees lat)))
      by (intros lat; apply earth_radius_total).
    cbn [bind]. rewrite truediv_ok by lra. cbn [bind].
    f_equal. unfold linspace, np_sum. cbn. lra.
Qed.

Lemma C9_witness :
  distance_to {| _latitude := 40; _longitude := -4 |}
              (PyCoordinate {| _latitude := 40; _longitude := -4 |}) 0
    = Ok 0
  /\ distance_to {| _latitude := 40; _longitude := -4 |}
                 (PyCoordinate {| _latitude := 40; _longitude := -4 |}) 5
       = Ok 0.
Proof.
  split.
  - apply (C9_distance_to_itself_is_zero
             {| _latitude := 40; _longitude := -4 |} 0).
    discriminate.
  - apply (C9_distance_to_itself_is_zero
             {| _latitude := 40; _longitude := -4 |} 5).
    discriminate.
Defined.

End Distance.

(** * Further properties of the code *)

(** ** The coordinate class *)

Section CoordinateClass.

Import Coordinate.

(** The outcome of the constructor, case by case: latitude is checked first,
    so its message is raised whenever the latitude is out of range, whatever
    the longitude; the longitude message is raised exactly when only the
    longitude is out of range; and the constructor succeeds exactly when
    both are in range. *)
Theorem constructor_outcomes (lat lon : Q) :
  (new lat lon = Raise (GeoCoordinateError latitude_message)
   <-> ~ in_latitude_range lat)
  /\ (new lat lon = Raise (GeoCoordinateError longitude_message)
      <-> in_latitude_range lat /\ ~ in_longitude_range lon)
  /\ (new lat lon = Ok {| _latitude := lat; _longitude := lon |}
      <-> in_latitude_range lat /\ in_longitude_range lon).
Proof.
  destruct (in_latitude_range_dec lat) as [Hlat | Hlat].
  - destruct (in_longitude_range_dec lon) as [Hlon | Hlon].
    + rewrite new_ok by assumption. intuition congruence.
    + rewrite new_longitude_raise by assumption.
      unfold latitude_message, longitude_message. intuition congruence.
  - rewrite new_latitude_raise by assumption.
    unfold latitude_message, longitude_message. intuition congruence.
Qed.

Lemma constructor_outcomes_witness :
  new (-100) 200 = Raise (GeoCoordinateError latitude_message)
  /\ new 10 200 = Raise (GeoCoordinateError longitude_message).
Proof.
  split.
  - apply (constructor_outcomes (-100) 200).
    apply out_of_range_bool. reflexivity.
  - apply (constructor_outcomes 10 200). split.
    + apply in_range_bool. reflexivity.
    + apply out_of_range_bool. reflexivity.
Defined.

(** Every coordinate the class hands out is within the bounds: the
    constructor, [inverted] and the arithmetic return valid coordinates
    only, and an assignment to a valid coordinate leaves it valid whether
    it is accepted or rejected. *)
Theorem coordinates_stay_valid
  (self : GeoCoordinate) (value : Q) (other : object) :
  valid self ->
  valid (snd (set_latitude value self))
  /\ valid (snd (set_longitude value self))
  /\ (forall c, inverted self = Ok c -> valid c)
  /\ (forall c, __add__ self other = Ok c -> valid c)
  /\ (forall c, __sub__ self other = Ok c -> valid c).
Proof.
  intros Hv.
  split; [now apply set_latitude_valid |].
  split; [now apply set_longitude_valid |].
  split; [intros c; apply new_valid |].
  split; intros c; (destruct other; [apply new_valid | |]; discriminate).
Qed.

Lemma coordinates_stay_valid_witness :
  valid (snd (set_latitude 200 {| _latitude := 10; _longitude := 20 |}))
  /\ valid (snd (set_longitude 30 {| _latitude := 10; _longitude := 20 |})).
Proof.
  assert (Hv : valid {| _latitude := 10; _longitude := 20 |})
    by (split; apply in_range_bool; reflexivity).
  split.
  - exact (proj1 (coordinates_stay_valid _ 200 PyOther Hv)).
  - exact (proj1 (proj2 (coordinates_stay_valid _ 30 PyOther Hv))).
Defined.

(** [inverted] undoes itself: when the inverted coordinate of a valid
    coordinate exists, inverting it again gives the coordinate back. *)
Theorem inverted_twice (c c' : GeoCoordinate) :
  valid c -> inverted c = Ok c' -> inverted c' = Ok c.
Proof.
  intros [Hlat Hlon] H. unfold inverted in H.
  assert (Hr : in_latitude_range (longitude c)
               /\ in_longitude_range (latitude c))
    by (apply new_succeeds_iff; now exists c').
  rewrite new_ok in H by tauto. injection H as <-.
  unfold inverted. cbn. destruct c as [la lo]. now apply new_ok.
Qed.

Lemma inverted_twice_witness :
  inverted {| _latitude := 20; _longitude := 10 |}
  = Ok {| _latitude := 10; _longitude := 20 |}.
Proof.
  apply (inverted_twice {| _latitude := 10; _longitude := 20 |}).
  - split; apply in_range_bool; reflexivity.
  - reflexivity.
Defined.

Lemma Qeq_bool_comm (x y : Q) : Qeq_bool x y = Qeq_bool y x.
Proof.
  destruct (Qeq_bool x y) eqn:E1; destruct (Qeq_bool y x) eqn:E2;
    try reflexivity.
  - apply Qeq_bool_sym in E1. congruence.
  - apply Qeq_bool_sym in E2. congruence.
Qed.

(** [!=] is the negation of [==] on every argument: on a coordinate the two
    answers are opposite, on anything else both raise the same error. *)
Theorem ne_negates_eq (self : GeoCoordinate) (other : object) :
  __ne__ self other = (let? equal := __eq__ self other in Ok (negb equal)).
Proof.
  destruct other; cbn; try reflexivity.
  now rewrite negb_andb.
Qed.

(** [==] on coordinates never raises and is an equivalence: it holds
    between a coordinate and itself, does not depend on the order of its
    arguments, and passes through a common third coordinate. *)
Theorem eq_is_an_equivalence (a b c : GeoCoordinate) :
  __eq__ a (PyCoordinate a) = Ok true
  /\ __eq__ a (PyCoordinate b) = __eq__ b (PyCoordinate a)
  /\ (__eq__ a (PyCoordinate b) = Ok true ->
      __eq__ b (PyCoordinate c) = Ok true ->
      __eq__ a (PyCoordinate c) = Ok true).
Proof.
  split; [cbn; now rewrite !Qeq_bool_refl |].
  split; [cbn; f_equal; f_equal; apply Qeq_bool_comm |].
  cbn. intros Hab Hbc.
  injection Hab as Hab. injection Hbc as Hbc.
  apply andb_true_iff in Hab as [H1 H2].
  apply andb_true_iff in Hbc as [H3 H4].
  f_equal. apply andb_true_iff.
  split; eapply Qeq_bool_trans; eassumption.
Qed.

Lemma eq_is_an_equivalence_witness :
  __eq__ {| _latitude := 10; _longitude := 20 |}
         (PyCoordinate {| _latitude := 20 # 2; _longitude := 20 |})
  = Ok true.
Proof.
  apply (eq_is_an_equivalence
           {| _latitude := 10; _longitude := 20 |}
           {| _latitude := 30 # 3; _longitude := 40 # 2 |}
           {| _latitude := 20 # 2; _longitude := 20 |});
    reflexivity.
Defined.

Lemma Qplus_swap (x y : Q) : (x + y)%Q = (y + x)%Q.
Proof.
  unfold Qplus. f_equal; [ring | apply Pos.mul_comm].
Qed.

(** Addition and subtraction return the coordinate of the computed
    component-wise sums, resp. differences, exactly when those are within
    the bounds, whatever the exact sums are; and addition does not depend on
    the order of its operands, whether it returns or raises. *)
Theorem arithmetic_outcomes (a b : GeoCoordinate) :
  (__add__ a (PyCoordinate b)
     = Ok {| _latitude := float_add (latitude a) (latitude b);
             _longitude := float_add (longitude a) (longitude b) |}
   <-> sum_in_range a b)
  /\ (__sub__ a (PyCoordinate b)
        = Ok {| _latitude := float_sub (latitude a) (latitude b);
                _longitude := float_sub (longitude a) (longitude b) |}
      <-> difference_in_range a b)
  /\ (succeeds (__add__ a (PyCoordinate b)) <-> sum_in_range a b)
  /\ (succeeds (__sub__ a (PyCoordinate b)) <-> difference_in_range a b)
  /\ __add__ a (PyCoordinate b) = __add__ b (PyCoordinate a).
Proof.
  split; [apply constructor_outcomes |].
  split; [apply constructor_outcomes |].
  split; [apply new_succeeds_iff |].
  split; [apply new_succeeds_iff |].
  cbn. unfold float_add.
  now rewrite (Qplus_swap (latitude a)), (Qplus_swap (longitude a)).
Qed.

(** The sum of (10, 20) and (5, 5) is (15, 25), their difference (5, 15);
    and the sum of (90, 0) and (2 ^ -60, 0), whose latitude rounds to 90, is
    returned although the exact sum is above 90. *)
Lemma arithmetic_outcomes_witness :
  __add__ {| _latitude := 10; _longitude := 20 |}
          (PyCoordinate {| _latitude := 5; _longitude := 5 |})
    = Ok {| _latitude := 15; _longitude := 25 |}
  /\ __sub__ {| _latitude := 10; _longitude := 20 |}
             (PyCoordinate {| _latitude := 5; _longitude := 5 |})
       = Ok {| _latitude := 5; _longitude := 15 |}
  /\ __add__ {| _latitude := 90; _longitude := 0 |}
             (PyCoordinate
                {| _latitude := 1 # 1152921504606846976; _longitude := 0 |})
       = Ok {| _latitude := 90; _longitude := 0 |}.
Proof.
  destruct (arithmetic_outcomes
              {| _latitude := 10; _longitude := 20 |}
              {| _latitude := 5; _longitude := 5 |})
    as (Hadd & Hsub & _).
  destruct (arithmetic_outcomes
              {| _latitude := 90; _longitude := 0 |}
              {| _latitude := 1 # 1152921504606846976; _longitude := 0 |})
    as (Hround & _).
  split; [| split].
  - apply Hadd. split; apply in_range_bool; vm_compute; reflexivity.
  - apply Hsub. split; apply in_range_bool; vm_compute; reflexivity.
  - apply Hround. split; apply in_range_bool; vm_compute; reflexivity.
Defined.

(** [from_tuple] and [from_list] succeed exactly on what [to_tuple] and
    [to_list] export from a valid coordinate, and return that coordinate. *)
Theorem from_tuple_and_list_outcomes
  (pair : Q * Q) (values : list Q) (c : GeoCoordinate) :
  (from_tuple pair = Ok c <-> valid c /\ pair = to_tuple c)
  /\ (from_list values = Ok c <-> valid c /\ values = to_list c).
Proof.
  split.
  - destruct pair as [lat lon]. unfold from_tuple, to_tuple. cbn [fst snd].
    split.
    + intros H. pose proof (new_valid _ _ _ H) as Hv.
      assert (Hr : in_latitude_range lat /\ in_longitude_range lon)
        by (apply new_succeeds_iff; now exists c).
      rewrite new_ok in H by tauto. injection H as <-. now split.
    + intros [[Hlat Hlon] E]. injection E as -> ->.
      destruct c as [la lo]. now apply new_ok.
  - unfold to_list. split.
    + destruct values as [| lat [| lon [| extra values]]];
        try discriminate.
      cbn. intros H. pose proof (new_valid _ _ _ H) as Hv.
      assert (Hr : in_latitude_range lat /\ in_longitude_range lon)
        by (apply new_succeeds_iff; now exists c).
      rewrite new_ok in H by tauto. injection H as <-. now split.
    + intros [[Hlat Hlon] ->]. cbn.
      destruct c as [la lo]. now apply new_ok.
Qed.

Lemma from_tuple_and_list_outcomes_witness :
  from_list [10; 20] = Ok {| _latitude := 10; _longitude := 20 |}.
Proof.
  apply (from_tuple_and_list_outcomes (10, 20) [10; 20]). split.
  - split; apply in_range_bool; reflexivity.
  - reflexivity.
Defined.

(** [from_dict] returns a coordinate exactly when the coordinate is valid and
    the dict holds what [to_dict] exports from it; other keys of the dict
    are ignored. *)
Theorem from_dict_succeeds_iff (values : gmap string Q) (c : GeoCoordinate) :
  from_dict values = Ok c <-> valid c /\ to_dict c ⊆ values.
Proof.
  unfold from_dict, to_dict. split.
  - destruct (values !! "latitude") as [lat |] eqn:Elat; [| discriminate].
    destruct (values !! "longitude") as [lon |] eqn:Elon; [| discriminate].
    intros H. pose proof (new_valid _ _ _ H) as Hv.
    assert (Hr : in_latitude_range lat /\ in_longitude_range lon)
      by (apply new_succeeds_iff; now exists c).
    rewrite new_ok in H by tauto. injection H as <-.
    split; [exact Hv |]. cbn.
    apply insert_subseteq_l; [exact Elat |].
    apply insert_subseteq_l; [exact Elon |].
    apply map_empty_subseteq.
  - intros [[Hlat Hlon] Hsub].
    assert (Elat : values !! "latitude" = Some (latitude c)).
    { eapply lookup_weaken; [| exact Hsub]. apply lookup_insert_eq. }
    assert (Elon : values !! "longitude" = Some (longitude c)).
    { eapply lookup_weaken; [| exact Hsub].
      rewrite lookup_insert_ne by discriminate. apply lookup_insert_eq. }
    rewrite Elat, Elon. destruct c as [la lo]. now apply new_ok.
Qed.

Lemma from_dict_succeeds_iff_witness :
  from_dict (<["height" := 600]> (<["latitude" := 10]>
               (<["longitude" := 20]> ∅)))
  = Ok {| _latitude := 10; _longitude := 20 |}.
Proof.
  apply from_dict_succeeds_iff. split.
  - split; apply in_range_bool; reflexivity.
  - apply map_subseteq_spec. intros k v.
    unfold to_dict. cbn.
    rewrite !lookup_insert. repeat case_decide; subst; try discriminate;
      try (intros [= <-]; reflexivity).
Defined.

(** A missing key is reported before any bounds check, "latitude" first:
    without "latitude" the error is its [KeyError], whatever else the dict
    holds; with "latitude" but without "longitude" it is the [KeyError] of
    "longitude", even when the latitude is out of range. *)
Theorem from_dict_missing_key (values : gmap string Q) :
  (values !! "latitude" = None ->
   from_dict values = Raise (KeyError "latitude"))
  /\ (is_Some (values !! "latitude") -> values !! "longitude" = None ->
      from_dict values = Raise (KeyError "longitude")).
Proof.
  unfold from_dict. split.
  - intros ->. reflexivity.
  - intros [lat ->] ->. reflexivity.
Qed.

Lemma from_dict_missing_key_witness :
  from_dict (<["latitude" := 200]> ∅) = Raise (KeyError "longitude").
Proof.
  apply from_dict_missing_key.
  - exists 200. reflexivity.
  - reflexivity.
Defined.

End CoordinateClass.

(** ** The extent class *)

(** The extent constructor accepts any two coordinates as they are, with no
    order required between their latitudes or longitudes, and nothing else:
    an argument that is not a coordinate raises the coordinate error, the
    one of [start] first. *)
Theorem extent_constructor_outcomes (start end_ : object) :
  (forall a b, start = PyCoordinate a -> end_ = PyCoordinate b ->
     Extent.new start end_ = Ok {| _start := a; _end := b |})
  /\ ((forall a, start <> PyCoordinate a) ->
      Extent.new start end_ =
        Raise (GeoCoordinateError
                 "Start coordinate must be a GeoCoordinate object."))
  /\ (forall a, start = PyCoordinate a ->
      (forall b, end_ <> PyCoordinate b) ->
      Extent.new start end_ =
        Raise (GeoCoordinateError
                 "End coordinate must be a GeoCoordinate object.")).
Proof.
  split; [intros a b -> ->; reflexivity |].
  split.
  - intros H. destruct start as [a | e |]; try reflexivity.
    now contradiction (H a).
  - intros a -> H. destruct end_ as [b | e |]; try reflexivity.
    now contradiction (H b).
Qed.

Lemma extent_constructor_outcomes_witness :
  Extent.new (PyCoordinate {| _latitude := 41; _longitude := -3 |})
             (PyCoordinate {| _latitude := 40; _longitude := -4 |})
    = Ok {| _start := {| _latitude := 41; _longitude := -3 |};
            _end := {| _latitude := 40; _longitude := -4 |} |}
  /\ Extent.new PyOther PyOther
     = Raise (GeoCoordinateError
                "Start coordinate must be a GeoCoordinate object.").
Proof.
  split.
  - now apply (extent_constructor_outcomes
                 (PyCoordinate {| _latitude := 41; _longitude := -3 |})
                 (PyCoordinate {| _latitude := 40; _longitude := -4 |})).
  - apply (extent_constructor_outcomes PyOther PyOther). discriminate.
Defined.

(** On extents too [!=] is the negation of [==], although each stops at the
    first corner that decides it: on an extent the two answers are opposite,
    on anything else both raise the same error. *)
Theorem extent_ne_negates_eq (self : GeoCoordinateExtent) (other : object) :
  Extent.__ne__ self other =
    (let? equal := Extent.__eq__ self other in Ok (negb equal)).
Proof.
  destruct other as [c | other |]; cbn; try reflexivity.
  repeat match goal with
         | |- context [Qeq_bool ?x ?y] => destruct (Qeq_bool x y)
         end; reflexivity.
Qed.

(** ** The window of an extent *)

(** Whatever the extent and the transform, the window starts at or after
    row 0 and column 0, and its far edges [col_off + width] and
    [row_off + height] do not pass the width and the height of the raster;
    its sizes themselves are not clamped (they are negative when the
    clamped maximum falls below the clamped minimum). *)
Theorem window_edges_within_raster
  (src : DatasetReader) (extent : GeoCoordinateExtent) :
  (0 <= col_off (clip_window src extent))%Z
  /\ (0 <= row_off (clip_window src extent))%Z
  /\ (col_off (clip_window src extent)
      + window_width (clip_window src extent) <= width src)%Z
  /\ (row_off (clip_window src extent)
      + window_height (clip_window src extent) <= height src)%Z.
Proof.
  unfold clip_window.
  destruct (Extent.to_tuple extent) as [[[l b] r] t].
  destruct (inverse_transform src (l, t)) as [row_min col_min].
  destruct (inverse_transform src (r, b)) as [row_max col_max].
  cbn. lia.
Qed.

(** ** Aggregates over an extent *)

Section Aggregates.

Variable src : DatasetReader.
Variable extent : GeoCoordinateExtent.

(** What is aggregated: the samples of the clipped rows that are above
    zero, and only those. *)
Lemma positive_samples_spec (data : ndarray) (v : Q) :
  In v (positive_samples data)
  <-> (exists row, In row data /\ In v row) /\ 0 < v.
Proof.
  unfold positive_samples.
  rewrite filter_In, in_concat, Qlt_bool_iff. reflexivity.
Qed.

Lemma Qmax_choice (x y : Q) : Qmax x y = x \/ Qmax x y = y.
Proof.
  unfold Qmax, GenericMinMax.gmax. destruct (x ?= y); auto.
Qed.

Lemma Qmin_choice (x y : Q) : Qmin x y = x \/ Qmin x y = y.
Proof.
  unfold Qmin, GenericMinMax.gmin. destruct (x ?= y); auto.
Qed.

Lemma fold_Qmax_spec (l : list Q) (x : Q) :
  In (fold_left Qmax l x) (x :: l)
  /\ forall v, In v (x :: l) -> v <= fold_left Qmax l x.
Proof.
  revert x. induction l as [| y l IH]; intros x; cbn [fold_left].
  - split; [now left |]. intros v [<- | []]. apply Qle_refl.
  - destruct (IH (Qmax x y)) as [Hin Hle]. split.
    + destruct Hin as [E | Hin]; [| right; right; exact Hin].
      rewrite <- E.
      destruct (Qmax_choice x y) as [-> | ->]; [now left | right; now left].
    + intros v [<- | [<- | Hv]].
      * eapply Qle_trans; [apply Q.le_max_l | apply Hle; now left].
      * eapply Qle_trans; [apply Q.le_max_r | apply Hle; now left].
      * apply Hle. now right.
Qed.

Lemma fold_Qmin_spec (l : list Q) (x : Q) :
  In (fold_left Qmin l x) (x :: l)
  /\ forall v, In v (x :: l) -> fold_left Qmin l x <= v.
Proof.
  revert x. induction l as [| y l IH]; intros x; cbn [fold_left].
  - split; [now left |]. intros v [<- | []]. apply Qle_refl.
  - destruct (IH (Qmin x y)) as [Hin Hle]. split.
    + destruct Hin as [E | Hin]; [| right; right; exact Hin].
      rewrite <- E.
      destruct (Qmin_choice x y) as [-> | ->]; [now left | right; now left].
    + intros v [<- | [<- | Hv]].
      * eapply Qle_trans; [apply Hle; now left | apply Q.le_min_l].
      * eapply Qle_trans; [apply Hle; now left | apply Q.le_min_r].
      * apply Hle. now right.
Qed.

(** When the window holds a sample above zero, no mode raises or returns
    NaN; the maximum and the minimum are samples of the window, both above
    zero, and every sample above zero lies between them. *)
Theorem aggregates_of_a_selection (data : ndarray) :
  clip_tiff_to_extent src extent = Ok data ->
  positive_samples data <> [] ->
  exists mean largest smallest,
    get_population_density_in_extent extent src "mean" = Ok (Finite mean)
    /\ get_population_density_in_extent extent src "max"
         = Ok (Finite largest)
    /\ get_population_density_in_extent extent src "min"
         = Ok (Finite smallest)
    /\ (exists row, In row data /\ In largest row)
    /\ (exists row, In row data /\ In smallest row)
    /\ 0 < smallest
    /\ forall v row, In row data -> In v row -> 0 < v ->
         smallest <= v /\ v <= largest.
Proof.
  intros Hclip Hne. unfold get_population_density_in_extent.
  rewrite Hclip. cbn [bind String.eqb Ascii.eqb Bool.eqb].
  destruct (positive_samples data) as [| x l] eqn:E; [contradiction |].
  destruct (fold_Qmax_spec l x) as [Hmax_in Hmax_le].
  destruct (fold_Qmin_spec l x) as [Hmin_in Hmin_le].
  rewrite <- E in Hmax_in, Hmin_in, Hmax_le, Hmin_le.
  apply positive_samples_spec in Hmax_in as [Hmax_in _].
  apply positive_samples_spec in Hmin_in as [Hmin_in Hmin_pos].
  eexists _, (fold_left Qmax l x), (fold_left Qmin l x).
  repeat split; try reflexivity; try assumption.
  - apply Hmin_le. apply positive_samples_spec. eauto.
  - apply Hmax_le. apply positive_samples_spec. eauto.
Qed.

(** The mode is looked at last and compared as it is written: once the
    window is accepted and read, any mode but "mean", "max" and "min" raises
    the [ValueError] of the mode, whatever the samples; and when the clip
    raises, because the window is rejected or because the read fails, that
    exception comes out for every mode, valid or not. *)
Theorem mode_is_checked_after_the_read (mode : string) :
  (forall data,
     clip_tiff_to_extent src extent = Ok data ->
     mode <> "mean" -> mode <> "max" -> mode <> "min" ->
     get_population_density_in_extent extent src mode
       = Raise (ValueError "Mode must be 'mean', 'max', or 'min'"))
  /\ (forall e,
        clip_tiff_to_extent src extent = Raise e ->
        get_population_density_in_extent extent src mode = Raise e)
  /\ (forall window e,
        validate_window (clip_window src extent) = Ok window ->
        read src 1%Z window = Raise e ->
        get_population_density_in_extent extent src mode = Raise e).
Proof.
  split; [| split].
  - intros data Hclip H1 H2 H3. unfold get_population_density_in_extent.
    rewrite Hclip. cbn [bind].
    apply String.eqb_neq in H1, H2, H3. now rewrite H1, H2, H3.
  - intros e Hclip. unfold get_population_density_in_extent.
    now rewrite Hclip.
  - intros window e Hwindow Hread.
    unfold get_population_density_in_extent, clip_tiff_to_extent.
    rewrite Hwindow. cbn [bind]. now rewrite Hread.
Qed.

(** A window with a negative width or height is rejected before the band is
    read: whatever the band and whatever the mode, the aggregate raises the
    [ValueError] of the window. *)
Theorem rejected_window_is_not_read
  (band : Z -> Window -> result ndarray) (mode : string) :
  (window_width (clip_window src extent) < 0
   \/ window_height (clip_window src extent) < 0)%Z ->
  get_population_density_in_extent extent
    {| inverse_transform := inverse_transform src;
       width := width src; height := height src; read := band |} mode
  = Raise (ValueError window_message).
Proof.
  intros H.
  unfold get_population_density_in_extent, clip_tiff_to_extent.
  change (clip_window _ extent) with (clip_window src extent).
  unfold validate_window.
  destruct (Z.ltb_spec (window_width (clip_window src extent)) 0)
    as [_ | Hw]; [reflexivity |].
  destruct (Z.ltb_spec (window_height (clip_window src extent)) 0)
    as [_ | Hh]; [reflexivity | lia].
Qed.

End Aggregates.

Lemma aggregates_of_a_selection_witness :
  exists mean largest smallest,
    get_population_density_in_extent north_west_extent populated_raster
      "mean" = Ok (Finite mean)
    /\ get_population_density_in_extent north_west_extent populated_raster
         "max" = Ok (Finite largest)
    /\ get_population_density_in_extent north_west_extent populated_raster
         "min" = Ok (Finite smallest)
    /\ 0 < smallest.
Proof.
  destruct (aggregates_of_a_selection
              populated_raster north_west_extent [[10; 0]; [30; 20]])
    as (mean & largest & smallest & H1 & H2 & H3 & _ & _ & H4 & _).
  - reflexivity.
  - discriminate.
  - exists mean, largest, smallest. tauto.
Defined.

Lemma mode_is_checked_after_the_read_witness :
  get_population_density_in_extent north_west_extent sample_raster "Mean"
    = Raise (ValueError "Mode must be 'mean', 'max', or 'min'")
  /\ get_population_density_in_extent north_west_extent unreadable_raster
       "mean" = Raise IndexError.
Proof.
  split.
  - apply (mode_is_checked_after_the_read
             sample_raster north_west_extent "Mean")
      with (data := [[0; -1]; [0; 0]]);
      reflexivity || discriminate.
  - destruct (mode_is_checked_after_the_read
                unreadable_raster north_west_extent "mean")
      as (_ & _ & H).
    apply (H {| col_off := 2; row_off := 4;
                window_width := 2; window_height := 2 |});
      reflexivity.
Defined.

Lemma rejected_window_is_not_read_witness :
  get_population_density_in_extent sample_extent populated_raster "mean"
  = Raise (ValueError window_message).
Proof.
  apply (rejected_window_is_not_read
           sample_raster sample_extent (read populated_raster) "mean").
  left. reflexivity.
Defined.

(** ** The pixel lookup *)

(** Truncation keeps a number that is at least 0 and below an integer bound
    at least 0 and below that bound. *)
Lemma int_within (x : Q) (bound : Z) :
  0 <= x -> x < inject_Z bound -> (0 <= int x < bound)%Z.
Proof.
  destruct x as [n d]. unfold Qle, Qlt, int. cbn.
  intros Hlo Hhi.
  rewrite Z.quot_div_nonneg by lia.
  split.
  - apply Z.div_pos; lia.
  - apply Z.div_lt_upper_bound; lia.
Qed.

Lemma axis_index_within (n : nat) (i : Z) :
  (0 <= i < Z.of_nat n)%Z -> axis_index n i = Ok (Z.to_nat i).
Proof.
  intros H. unfold axis_index.
  destruct (Z.ltb_spec i 0) as [Hneg | _]; [lia |].
  destruct (Z.leb_spec 0 i) as [_ | Hneg]; [| lia].
  destruct (Z.ltb_spec i (Z.of_nat n)) as [_ | Hge]; [| lia].
  reflexivity.
Qed.

(** For a valid coordinate whose longitude lies in [-90, 90], on an array
    that has the height and the width of the raster: when the inverse
    transform of (longitude, latitude) falls inside the raster the lookup
    returns the element at the truncated row and column and never an
    [IndexError]; when it falls outside, the lookup returns [None]. *)
Theorem lookup_on_a_matching_array
  (c : GeoCoordinate) (src : DatasetReader) (data : ndarray) (col row : Q) :
  Coordinate.valid c ->
  Coordinate.in_latitude_range (Coordinate.longitude c) ->
  inverse_transform src (Coordinate.longitude c, Coordinate.latitude c)
    = (col, row) ->
  Z.of_nat (length data) = height src ->
  Forall (fun line => Z.of_nat (length line) = width src) data ->
  (in_bounds src col row ->
   get_value_from_coordinates c src data =
     Ok (Some (nth (Z.to_nat (int col))
                   (nth (Z.to_nat (int row)) data []) 0)))
  /\ (~ in_bounds src col row ->
      get_value_from_coordinates c src data = Ok None).
Proof.
  intros Hv Hband Hinv Hheight Hwidth.
  destruct (get_value_from_coordinates_in_latitude_band
              c src data col row Hv Hband Hinv) as [Hin Hout].
  split; [| exact Hout].
  intros Hb. rewrite (Hin Hb). destruct Hb as [[Hc0 Hc1] [Hr0 Hr1]].
  pose proof (int_within row (height src) Hr0 Hr1) as Hrow.
  pose proof (int_within col (width src) Hc0 Hc1) as Hcol.
  unfold getitem.
  rewrite axis_index_within by lia. cbn [bind].
  assert (Hline : Z.of_nat (length (nth (Z.to_nat (int row)) data []))
                  = width src).
  { rewrite List.Forall_forall in Hwidth. apply Hwidth.
    apply nth_In. lia. }
  rewrite axis_index_within by lia. reflexivity.
Qed.

Lemma lookup_on_a_matching_array_witness :
  get_value_from_coordinates
    {| _latitude := 1; _longitude := 0 |}
    {| inverse_transform := fun p => (fst p + (3 # 2), snd p);
       width := 2; height := 2; read := fun _ _ => Ok [] |}
    [[1; 2]; [3; 4]]
  = Ok (Some 4).
Proof.
  apply (lookup_on_a_matching_array
           {| _latitude := 1; _longitude := 0 |}
           {| inverse_transform := fun p => (fst p + (3 # 2), snd p);
              width := 2; height := 2; read := fun _ _ => Ok [] |}
           [[1; 2]; [3; 4]] (0 + (3 # 2)) 1).
  - split; apply in_range_bool; reflexivity.
  - apply in_range_bool. reflexivity.
  - reflexivity.
  - reflexivity.
  - repeat constructor.
  - apply in_bounds_bool. reflexivity.
Defined.

(** A raster larger than the array: the bounds tested are those of the
    raster, so a position inside the raster but past the last row of the
    array raises an [IndexError]. *)
Theorem lookup_on_a_short_array
  (c : GeoCoordinate) (src : DatasetReader) (data : ndarray) (col row : Q) :
  Coordinate.valid c ->
  Coordinate.in_latitude_range (Coordinate.longitude c) ->
  inverse_transform src (Coordinate.longitude c, Coordinate.latitude c)
    = (col, row) ->
  in_bounds src col row ->
  (Z.of_nat (length data) <= int row)%Z ->
  get_value_from_coordinates c src data = Raise IndexError.
Proof.
  intros Hv Hband Hinv Hb Hshort.
  destruct (get_value_from_coordinates_in_latitude_band
              c src data col row Hv Hband Hinv) as [Hin _].
  rewrite (Hin Hb). destruct Hb as [_ [Hr0 Hr1]].
  pose proof (int_within row (height src) Hr0 Hr1) as Hrow.
  unfold getitem, axis_index.
  destruct (Z.ltb_spec (int row) 0) as [Hneg | _]; [lia |].
  destruct (Z.ltb_spec (int row) (Z.of_nat (length data))) as [Hlt | _];
    [lia |].
  now rewrite andb_false_r.
Qed.

Lemma lookup_on_a_short_array_witness :
  get_value_from_coordinates
    {| _latitude := 1; _longitude := 0 |}
    {| inverse_transform := fun p => (fst p + (3 # 2), snd p);
       width := 2; height := 2; read := fun _ _ => Ok [] |}
    [[1; 2]]
  = Raise IndexError.
Proof.
  apply (lookup_on_a_short_array
           {| _latitude := 1; _longitude := 0 |}
           {| inverse_transform := fun p => (fst p + (3 # 2), snd p);
              width := 2; height := 2; read := fun _ _ => Ok [] |}
           [[1; 2]] (0 + (3 # 2)) 1).
  - split; apply in_range_bool; reflexivity.
  - apply in_range_bool. reflexivity.
  - reflexivity.
  - apply in_bounds_bool. reflexivity.
  - discriminate.
Defined.

(** ** The radius and the distance *)

Section RadiusAndDistance.

Import Coordinate.

Local Open Scope R_scope.

Lemma radians_opp (x : R) : radians (- x) = - radians x.
Proof.
  unfold radians. lra.
Qed.

(** The quotient under the square root of the radius lies between the
    squares of the two semi-axes. *)
Lemma ellipse_quotient_bounds (p q x : R) :
  0 < q -> q <= p ->
  q ^ 2 <= ((p ^ 2 * cos x) ^ 2 + (q ^ 2 * sin x) ^ 2)
           / ((p * cos x) ^ 2 + (q * sin x) ^ 2) <= p ^ 2.
Proof.
  intros Hq Hpq.
  assert (Hp : 0 < p) by lra.
  pose proof (ellipse_denominator_positive p q x Hp Hq) as Hden.
  assert (Hc : 0 <= (p * cos x) ^ 2) by apply pow2_ge_0.
  assert (Hs : 0 <= (q * sin x) ^ 2) by apply pow2_ge_0.
  assert (Hgap : 0 <= p ^ 2 - q ^ 2) by nra.
  set (num := (p ^ 2 * cos x) ^ 2 + (q ^ 2 * sin x) ^ 2).
  set (den := (p * cos x) ^ 2 + (q * sin x) ^ 2) in *.
  assert (Elo : num = q ^ 2 * den + (p ^ 2 - q ^ 2) * (p * cos x) ^ 2)
    by (unfold num, den; ring).
  assert (Ehi : p ^ 2 * den = num + (p ^ 2 - q ^ 2) * (q * sin x) ^ 2)
    by (unfold num, den; ring).
  assert (Equo : num / den * den = num) by (field; lra).
  split; apply Rmult_le_reg_r with den; try exact Hden; rewrite Equo; nra.
Qed.

Lemma radius_of_curvature_bounds (latitude : R) :
  wgs84_b <= radius_of_curvature latitude <= wgs84_a.
Proof.
  destruct wgs84_positive as [Ha Hb].
  assert (Hba : wgs84_b <= wgs84_a) by (unfold wgs84_a, wgs84_b; lra).
  unfold radius_of_curvature. cbv zeta.
  pose proof (ellipse_denominator_positive
                wgs84_a wgs84_b (radians latitude) Ha Hb) as Hden.
  rewrite <- sqrt_div_alt by exact Hden.
  destruct (ellipse_quotient_bounds
              wgs84_a wgs84_b (radians latitude) Hb Hba) as [Hlo Hhi].
  split.
  - apply Rle_trans with (sqrt (wgs84_b ^ 2));
      [right; symmetry; apply sqrt_pow2; lra | now apply sqrt_le_1_alt].
  - apply Rle_trans with (sqrt (wgs84_a ^ 2));
      [now apply sqrt_le_1_alt | right; apply sqrt_pow2; lra].
Qed.

(** [earth_radius] returns for every latitude, in range or not: its divisor
    is never zero.  The radius lies between the polar and the equatorial
    radius, and is the same at a latitude and at its opposite. *)
Theorem earth_radius_between_the_semi_axes (latitude : R) :
  exists radius,
    earth_radius latitude = Ok radius
    /\ wgs84_b <= radius <= wgs84_a
    /\ earth_radius (- latitude) = Ok radius.
Proof.
  exists (radius_of_curvature latitude).
  split; [apply earth_radius_total |].
  split; [apply radius_of_curvature_bounds |].
  rewrite earth_radius_total. f_equal.
  unfold radius_of_curvature. cbv zeta.
  rewrite radians_opp, cos_neg, sin_neg.
  f_equal; f_equal; ring.
Qed.

Lemma central_angle_swap (a b : GeoCoordinate) :
  central_angle a b = central_angle b a.
Proof.
  unfold central_angle, haversine. cbv zeta.
  set (phi1 := radians (Q2R (latitude a))).
  set (phi2 := radians (Q2R (latitude b))).
  set (lambda1 := radians (Q2R (longitude a))).
  set (lambda2 := radians (Q2R (longitude b))).
  replace ((phi1 - phi2) / 2) with (- ((phi2 - phi1) / 2)) by lra.
  replace ((lambda1 - lambda2) / 2) with (- ((lambda2 - lambda1) / 2))
    by lra.
  rewrite !sin_neg, <- !Rsqr_neg, (Rmult_comm (cos phi2)).
  reflexivity.
Qed.

(** The second half of [distance_to] for any step but zero. *)
Lemma stepped_branch_any (phi1 phi2 c : R) (step : Q) :
  Qeq_bool step 0 = false ->
  (let? ratio := truediv c (Q2R step) in
   let steps := Z.max (int_of_float ratio) 1 in
   let? radii :=
     comprehension
       (fun lat => earth_radius (degrees lat))
       (map (fun fraction => phi1 + fraction * (phi2 - phi1))
            (linspace 0 1 (Z.to_nat (steps + 1)))) in
   let? segment := truediv c (IZR steps) in
   Ok (np_sum (map (fun radius => radius * segment) (removelast radii))))
  = (let n := Z.to_nat (Z.max (int_of_float (c / Q2R step)) 1) in
     Ok (leading_sum
           (fun i =>
              radius_of_curvature
                (degrees (phi1 + INR i / INR n * (phi2 - phi1)))
              * (c / INR n))
           n)).
Proof.
  intros Hstep.
  rewrite truediv_ok by now apply Q2R_nonzero.
  cbn [bind]. cbv zeta.
  set (steps := Z.max (int_of_float (c / Q2R step)) 1).
  assert (Hsteps : (1 <= steps)%Z) by (unfold steps; lia).
  set (n := Z.to_nat steps).
  assert (Hn : IZR steps = INR n).
  { unfold n. rewrite INR_IZR_INZ, Z2Nat.id by lia. reflexivity. }
  replace (Z.to_nat (steps + 1)) with (S n) by (unfold n; lia).
  rewrite (comprehension_total _
             (fun lat => radius_of_curvature (degrees lat)))
    by (intros lat; apply earth_radius_total).
  cbn [bind].
  assert (Hpos : 0 < INR n) by (rewrite <- Hn; apply IZR_lt; lia).
  rewrite truediv_ok by (rewrite Hn; lra). cbn [bind].
  f_equal. unfold linspace. rewrite !map_map, np_sum_leading.
  apply leading_sum_ext. intros i. rewrite Hn.
  replace (S n - 1)%nat with n by lia.
  do 3 f_equal. unfold Rdiv. ring.
Qed.

(** What [distance_to] returns on two valid coordinates, for every step. *)
Lemma distance_to_value (a b : GeoCoordinate) (step : Q) :
  valid a -> valid b ->
  distance_to a (PyCoordinate b) step =
    Ok (if Qeq_bool step 0 then
          radius_of_curvature (Q2R ((latitude a + latitude b) / 2))
          * central_angle a b
        else
          let n :=
            Z.to_nat
              (Z.max (int_of_float (central_angle a b / Q2R step)) 1) in
          leading_sum
            (fun i =>
               radius_of_curvature
                 (degrees (radians (Q2R (latitude a))
                           + INR i / INR n
                             * (radians (Q2R (latitude b))
                                - radians (Q2R (latitude a)))))
               * (central_angle a b / INR n))
            n).
Proof.
  intros Ha Hb.
  rewrite distance_to_central_angle by now apply valid_haversine_range.
  cbv zeta. destruct (Qeq_bool step 0) eqn:E.
  - now rewrite earth_radius_total.
  - now rewrite stepped_branch_any by exact E.
Qed.

(** With a step of zero the distance does not depend on the order of the
    two coordinates. *)
Theorem direct_distance_is_symmetric (a b : GeoCoordinate) (step : Q) :
  valid a -> valid b -> (step == 0)%Q ->
  distance_to a (PyCoordinate b) step = distance_to b (PyCoordinate a) step.
Proof.
  intros Ha Hb Hstep. rewrite !distance_to_value by assumption.
  apply Qeq_bool_iff in Hstep. rewrite Hstep.
  now rewrite central_angle_swap, (Qplus_swap (latitude a)).
Qed.

Lemma direct_distance_is_symmetric_witness :
  distance_to {| _latitude := 10; _longitude := 20 |}
              (PyCoordinate {| _latitude := 40; _longitude := -4 |}) 0
  = distance_to {| _latitude := 40; _longitude := -4 |}
                (PyCoordinate {| _latitude := 10; _longitude := 20 |}) 0.
Proof.
  apply direct_distance_is_symmetric.
  - split; apply in_range_bool; reflexivity.
  - split; apply in_range_bool; reflexivity.
  - reflexivity.
Defined.

(** [distance_to] never divides by zero: on two valid coordinates, for
    every step, zero, positive or negative, no [ZeroDivisionError] comes
    out.  A step of zero takes the branch without [c / step], the number of
    steps is at least 1, and the divisor of the radius is positive. *)
Theorem distance_to_never_divides_by_zero
  (a b : GeoCoordinate) (step : Q) :
  valid a -> valid b ->
  distance_to a (PyCoordinate b) step <> Raise ZeroDivisionError.
Proof.
  intros Ha Hb. rewrite distance_to_value by assumption. discriminate.
Qed.

Lemma distance_to_never_divides_by_zero_witness :
  distance_to {| _latitude := 0; _longitude := 0 |}
              (PyCoordinate {| _latitude := 0; _longitude := 1 |}) (1 # 1000)
  <> Raise ZeroDivisionError.
Proof.
  apply distance_to_never_divides_by_zero;
    split; apply in_range_bool; reflexivity.
Defined.

End RadiusAndDistance.
